(** * json_logging: a shallow embedding of [json_logging/__init__.py]

    The development follows the module top to bottom: Python values and
    exceptions, the request/response data carrier and its timing formula,
    the framework registry and the initialisation guard, the formatter
    classes, and the correlation-id resolver the module delegates to. *)

From Stdlib Require Import ZArith Lia.
From Stdlib Require SpecFloat.
From stdpp Require Import gmap strings list fin_maps.

Set Warnings "-register-all,-clear-no-such-hyp".
Local Open Scope string_scope.
Local Open Scope Z_scope.

(** ** Python values, exceptions, and the effect monad *)

Module Py.

  (** A Python [float] is kept as a pair [(m, e)] standing for [m * 2^e]. *)
Definition pyfloat : Type := Z * Z.

  (** The values that flow through log records and carriers.  [VObj] is any
      object outside [EASY_TYPES]; it carries what [repr] prints for it. *)
Inductive value : Type :=
  | VNone
  | VBool (b : bool)
  | VInt (z : Z)
  | VFloat (f : pyfloat)
  | VStr (s : string)
  | VList (l : list value)
  | VDict (d : list (string * value))
  | VObj (repr : string).

Inductive exn : Type :=
  | RuntimeError (msg : string)
  | ValueError (msg : string)
  | AttributeError (msg : string)
  | TypeError (msg : string).

Inductive result (A : Type) : Type :=
  | Ok (a : A)
  | Raise (e : exn).
  Arguments Ok {A} a.
  Arguments Raise {A} e.

  (** Python truthiness. *)
Definition truthy_str (s : string) : bool :=
    match s with EmptyString => false | _ => true end.

Definition truthy_opt_str (o : option string) : bool :=
    match o with None => false | Some s => truthy_str s end.

Definition truthy (v : value) : bool :=
    match v with
    | VNone => false
    | VBool b => b
    | VInt z => negb (z =? 0)
    | VFloat (m, _) => negb (m =? 0)
    | VStr s => truthy_str s
    | VList l => match l with [] => false | _ => true end
    | VDict d => match d with [] => false | _ => true end
    | VObj _ => true
    end.

  (** [isinstance(value, EASY_TYPES)] with
      [EASY_TYPES = (str, bool, dict, float, int, list, type(None))]. *)
Definition is_easy_type (v : value) : bool :=
    match v with VObj _ => false | _ => true end.

  (** [int/int] true division, correctly rounded to binary64 (round half to
      even), the way CPython's [long_true_divide] computes it.  The quotient
      is scaled so that its integer part has exactly 53 bits; [-k] is the
      exponent of the result.  Operands here never leave the normal range of
      a double (|a| < 2^70, 0 < b < 2^21), so the overflow and subnormal
      branches are not modelled. *)
Definition scaled (a b k : Z) : Z * Z :=
    if 0 <=? k then (a * 2 ^ k, b) else (a, b * 2 ^ (- k)).

Definition round_half_even (q r d : Z) : Z :=
    if (d <? 2 * r) || ((d =? 2 * r) && Z.odd q) then q + 1 else q.

Definition true_div_pos (a b : Z) : pyfloat :=
    let k1 := 53 + Z.log2 b - Z.log2 a in
    let '(n1, d1) := scaled a b k1 in
    let k := if 2 ^ 53 <=? n1 / d1 then k1 - 1 else k1 in
    let '(n, d) := scaled a b k in
    (round_half_even (n / d) (n mod d) d, - k).

Definition true_div (a b : Z) : pyfloat :=
    if a =? 0 then (0, 0)
    else let '(m, e) := true_div_pos (Z.abs a) b in (Z.sgn a * m, e).

  (** [int(x)] on a float truncates towards zero. *)
Definition int_of_float (x : pyfloat) : Z :=
    let '(m, e) := x in
    if 0 <=? e then m * 2 ^ e else Z.quot m (2 ^ (- e)).

  (** [math.floor(x)], used to state properties. *)
Definition floor_of_float (x : pyfloat) : Z :=
    let '(m, e) := x in
    if 0 <=? e then m * 2 ^ e else m / 2 ^ (- e).

End Py.
Export Py.

(** ** [datetime] and [timedelta] *)

Module DateTime.

  (** A [datetime] is its count of microseconds since the first instant the
      type can represent. *)
Definition datetime : Type := Z.

  (** A normalised [timedelta]: [0 <= seconds < 86400] and
      [0 <= microseconds < 10^6]; only [days] carries the sign. *)
Record timedelta : Type := mkDelta {
    days : Z;
    seconds : Z;
    microseconds : Z
  }.

Definition us_per_second : Z := 1000000.
Definition us_per_day : Z := 86400 * us_per_second.

  (** [b - a] on datetimes. *)
Definition sub (b a : datetime) : timedelta :=
    let d := b - a in
    {| days := d / us_per_day;
       seconds := (d mod us_per_day) / us_per_second;
       microseconds := d mod us_per_second |}.

  (** [timedelta.total_seconds()]. *)
Definition total_seconds (td : timedelta) : pyfloat :=
    true_div ((days td * 86400 + seconds td) * 10 ^ 6 + microseconds td) (10 ^ 6).

End DateTime.

(** ** Missing collaborators

    [json_logging.util] is not part of the translated file; the functions the
    module calls from it are taken as parameters. *)

Class UtilModule : Type := {
  iso_time_format : DateTime.datetime -> string;
  epoch_nano_second : DateTime.datetime -> Z;
  parse_int : value -> Z -> Z
}.

(** ** The request/response data carrier *)

Module Carrier.
  Import DateTime.

  Section WithRequest.
    Context {U : UtilModule} {Req Resp : Type}.

    (** [DefaultRequestResponseDTO]: a [dict] with three private attributes
        next to its items. *)
Record dto : Type := mkDto {
      items : gmap string value;
      _request : Req;
      _response : option Resp;
      _request_start : datetime
    }.

    (** [DefaultRequestResponseDTO.__init__(request, **kwargs)], run when the
        clock reads [utcnow]. *)
Definition init (request : Req) (kwargs : gmap string value)
        (utcnow : datetime) : dto :=
      {| items := <["request_received_at" := VStr (iso_time_format utcnow)]> kwargs;
         _request := request;
         _response := None;
         _request_start := utcnow |}.

Definition response_time_ms (time_delta : timedelta) : Z :=
      int_of_float (total_seconds time_delta) * 1000
      + int_of_float (true_div (microseconds time_delta) 1000).

    (** [DefaultRequestResponseDTO.on_request_complete(response)], run when
        the clock reads [utcnow]. *)
Definition on_request_complete (self : dto) (response : Resp)
        (utcnow : datetime) : dto :=
      let time_delta := sub utcnow (_request_start self) in
      {| items :=
           <["response_sent_at" := VStr (iso_time_format utcnow)]>
             (<["response_time_ms" := VInt (response_time_ms time_delta)]>
                (items self));
         _request := _request self;
         _response := Some response;
         _request_start := _request_start self |}.

  End WithRequest.
  Arguments dto : clear implicits.

End Carrier.

(** ** Classes, the host logging facility, and the module's globals *)

Module Classes.

  (** A reference to a Python class: its name, the names along its method
      resolution order (itself first), and, for configurator classes, what a
      caller sees of [cls().config(...)]: a normal return or an exception. *)
Record pyclass : Type := mkClass {
    cls_name : string;
    cls_mro : list string;
    cls_config_raises : option exn
  }.

Definition issubclass (c : pyclass) (base : string) : bool :=
    bool_decide (base ∈ cls_mro c).

  (** The capability contracts of [json_logging.framework_base] and the
      host's formatter base class, by name. *)
Definition RequestAdapter_name : string := "RequestAdapter".
Definition ResponseAdapter_name : string := "ResponseAdapter".
Definition AppRequestInstrumentationConfigurator_name : string :=
    "AppRequestInstrumentationConfigurator".
Definition FrameworkConfigurator_name : string := "FrameworkConfigurator".
Definition Formatter_name : string := "logging.Formatter".

  (** The classes this module defines. *)
Definition BaseJSONFormatter : pyclass :=
    mkClass "BaseJSONFormatter" ["BaseJSONFormatter"; "logging.Formatter"; "object"] None.
Definition JSONRequestLogFormatter : pyclass :=
    mkClass "JSONRequestLogFormatter"
      ["JSONRequestLogFormatter"; "BaseJSONFormatter"; "logging.Formatter"; "object"] None.
Definition JSONLogFormatter : pyclass :=
    mkClass "JSONLogFormatter"
      ["JSONLogFormatter"; "BaseJSONFormatter"; "logging.Formatter"; "object"] None.
Definition JSONLogWebFormatter : pyclass :=
    mkClass "JSONLogWebFormatter"
      ["JSONLogWebFormatter"; "JSONLogFormatter"; "BaseJSONFormatter";
       "logging.Formatter"; "object"] None.
Definition RequestResponseDTOBase : pyclass :=
    mkClass "RequestResponseDTOBase" ["RequestResponseDTOBase"; "dict"; "object"] None.
Definition DefaultRequestResponseDTO : pyclass :=
    mkClass "DefaultRequestResponseDTO"
      ["DefaultRequestResponseDTO"; "RequestResponseDTOBase"; "dict"; "object"] None.

End Classes.
Export Classes.

Module State.

  (** Dict objects live in a store; two references to one dict are the same
      location. *)
Definition loc : Type := nat.

  (** A formatter instance.  [fmt_common] is the instance's own
      [base_object_common] attribute, absent unless somebody assigns one; the
      constructor never does. *)
Record formatter : Type := mkFormatter {
    fmt_class : pyclass;
    fmt_common : option loc
  }.

  (** A host logger: the formatter of each of its handlers, its level, and
      whether it still has a parent. *)
Record logger : Type := mkLogger {
    handlers : list (option formatter);
    level : option Z;
    has_parent : bool
  }.

  (** One entry of [_framework_support_map]. *)
Record entry : Type := mkEntry {
    app_configurator : option pyclass;
    app_request_instrumentation_configurator : pyclass;
    request_adapter_class : pyclass;
    response_adapter_class : pyclass
  }.

  (** [util.RequestUtil(request_adapter_class=..., response_adapter_class=...)]. *)
Record RequestUtil : Type := mkRequestUtil {
    ru_request_adapter_class : pyclass;
    ru_response_adapter_class : pyclass
  }.

Inductive log_level : Type := DEBUG | INFO | WARNING | ERROR.

  (** What the module does to a web application through a configurator. *)
Record instrumentation : Type := mkInstrumentation {
    inst_app : string;
    inst_configurator : pyclass;
    inst_extractor : pyclass;
    inst_exclude_url_patterns : list string
  }.

  (** The module's globals, the class attribute
      [BaseJSONFormatter.base_object_common], and the part of the host's
      [logging] state the module reads and writes. *)
Record state : Type := mkState {
    ENABLE_JSON_LOGGING : bool;
    ENABLE_JSON_LOGGING_DEBUG : bool;
    CREATE_CORRELATION_ID_IF_NOT_EXISTS : bool;
    CORRELATION_ID_HEADERS : list string;
    COMPONENT_ID : value;
    COMPONENT_NAME : value;
    COMPONENT_INSTANCE_INDEX : value;
    _framework_support_map : gmap string entry;
    _current_framework : option entry;
    _request_util : option RequestUtil;
    _default_formatter : option pyclass;
    (* the output of [_logger], oldest first *)
    _logger : list (log_level * string);
    (* dict objects, and the class attribute naming one of them *)
    store : gmap loc (gmap string value);
    base_object_common : loc;
    (* the host *)
    logging_defaultFormatter : option formatter;
    logging_root : logger;
    loggerDict : list logger;
    (* configurator singletons ([cls._instance]) with their request logger,
       by class name, and the applications instrumented so far *)
    configurator_instance : gmap string logger;
    instrumented : list instrumentation
  }.

Definition EMPTY_VALUE : string := "-".

Definition RECORD_ATTR_SKIP_LIST : list string :=
    ["asctime"; "created"; "exc_info"; "exc_text"; "filename"; "args";
     "funcName"; "id"; "levelname"; "levelno"; "lineno"; "module"; "msg";
     "msecs"; "msecs"; "message"; "name"; "pathname"; "process";
     "processName"; "relativeCreated"; "thread"; "threadName"; "extra";
     "props"; "stack_info"].

  (** The state right after the module body's assignments, before the
      framework registrations at the end of the file.  [json] is the
      [ENABLE_JSON_LOGGING] environment toggle. *)
Definition initial (json : bool) : state :=
    {| ENABLE_JSON_LOGGING := json;
       ENABLE_JSON_LOGGING_DEBUG := false;
       CREATE_CORRELATION_ID_IF_NOT_EXISTS := true;
       CORRELATION_ID_HEADERS := ["X-Correlation-ID"; "X-Request-ID"];
       COMPONENT_ID := VStr EMPTY_VALUE;
       COMPONENT_NAME := VStr EMPTY_VALUE;
       COMPONENT_INSTANCE_INDEX := VInt 0;
       _framework_support_map := ∅;
       _current_framework := None;
       _request_util := None;
       _default_formatter := None;
       _logger := [];
       store := {[ 0%nat := ∅ ]};
       base_object_common := 0%nat;
       logging_defaultFormatter := None;
       logging_root := mkLogger [] None false;
       loggerDict := [];
       configurator_instance := ∅;
       instrumented := [] |}.

  (** Field updates. *)
Definition set_ENABLE_JSON_LOGGING (b : bool) (s : state) : state :=
    mkState b (ENABLE_JSON_LOGGING_DEBUG s) (CREATE_CORRELATION_ID_IF_NOT_EXISTS s)
      (CORRELATION_ID_HEADERS s) (COMPONENT_ID s) (COMPONENT_NAME s)
      (COMPONENT_INSTANCE_INDEX s) (_framework_support_map s) (_current_framework s)
      (_request_util s) (_default_formatter s) (_logger s) (store s)
      (base_object_common s) (logging_defaultFormatter s) (logging_root s)
      (loggerDict s) (configurator_instance s) (instrumented s).

Definition set_framework_support_map (m : gmap string entry) (s : state) : state :=
    mkState (ENABLE_JSON_LOGGING s) (ENABLE_JSON_LOGGING_DEBUG s)
      (CREATE_CORRELATION_ID_IF_NOT_EXISTS s)
      (CORRELATION_ID_HEADERS s) (COMPONENT_ID s) (COMPONENT_NAME s)
      (COMPONENT_INSTANCE_INDEX s) m (_current_framework s)
      (_request_util s) (_default_formatter s) (_logger s) (store s)
      (base_object_common s) (logging_defaultFormatter s) (logging_root s)
      (loggerDict s) (configurator_instance s) (instrumented s).

Definition set_current_framework (e : option entry) (s : state) : state :=
    mkState (ENABLE_JSON_LOGGING s) (ENABLE_JSON_LOGGING_DEBUG s)
      (CREATE_CORRELATION_ID_IF_NOT_EXISTS s)
      (CORRELATION_ID_HEADERS s) (COMPONENT_ID s) (COMPONENT_NAME s)
      (COMPONENT_INSTANCE_INDEX s) (_framework_support_map s) e
      (_request_util s) (_default_formatter s) (_logger s) (store s)
      (base_object_common s) (logging_defaultFormatter s) (logging_root s)
      (loggerDict s) (configurator_instance s) (instrumented s).

Definition set_request_util (u : option RequestUtil) (s : state) : state :=
    mkState (ENABLE_JSON_LOGGING s) (ENABLE_JSON_LOGGING_DEBUG s)
      (CREATE_CORRELATION_ID_IF_NOT_EXISTS s)
      (CORRELATION_ID_HEADERS s) (COMPONENT_ID s) (COMPONENT_NAME s)
      (COMPONENT_INSTANCE_INDEX s) (_framework_support_map s) (_current_framework s)
      u (_default_formatter s) (_logger s) (store s)
      (base_object_common s) (logging_defaultFormatter s) (logging_root s)
      (loggerDict s) (configurator_instance s) (instrumented s).

Definition set_default_formatter (c : option pyclass) (s : state) : state :=
    mkState (ENABLE_JSON_LOGGING s) (ENABLE_JSON_LOGGING_DEBUG s)
      (CREATE_CORRELATION_ID_IF_NOT_EXISTS s)
      (CORRELATION_ID_HEADERS s) (COMPONENT_ID s) (COMPONENT_NAME s)
      (COMPONENT_INSTANCE_INDEX s) (_framework_support_map s) (_current_framework s)
      (_request_util s) c (_logger s) (store s)
      (base_object_common s) (logging_defaultFormatter s) (logging_root s)
      (loggerDict s) (configurator_instance s) (instrumented s).

Definition set_logger (l : list (log_level * string)) (s : state) : state :=
    mkState (ENABLE_JSON_LOGGING s) (ENABLE_JSON_LOGGING_DEBUG s)
      (CREATE_CORRELATION_ID_IF_NOT_EXISTS s)
      (CORRELATION_ID_HEADERS s) (COMPONENT_ID s) (COMPONENT_NAME s)
      (COMPONENT_INSTANCE_INDEX s) (_framework_support_map s) (_current_framework s)
      (_request_util s) (_default_formatter s) l (store s)
      (base_object_common s) (logging_defaultFormatter s) (logging_root s)
      (loggerDict s) (configurator_instance s) (instrumented s).

Definition set_store (h : gmap loc (gmap string value)) (s : state) : state :=
    mkState (ENABLE_JSON_LOGGING s) (ENABLE_JSON_LOGGING_DEBUG s)
      (CREATE_CORRELATION_ID_IF_NOT_EXISTS s)
      (CORRELATION_ID_HEADERS s) (COMPONENT_ID s) (COMPONENT_NAME s)
      (COMPONENT_INSTANCE_INDEX s) (_framework_support_map s) (_current_framework s)
      (_request_util s) (_default_formatter s) (_logger s) h
      (base_object_common s) (logging_defaultFormatter s) (logging_root s)
      (loggerDict s) (configurator_instance s) (instrumented s).

Definition set_logging_defaultFormatter (f : option formatter) (s : state) : state :=
    mkState (ENABLE_JSON_LOGGING s) (ENABLE_JSON_LOGGING_DEBUG s)
      (CREATE_CORRELATION_ID_IF_NOT_EXISTS s)
      (CORRELATION_ID_HEADERS s) (COMPONENT_ID s) (COMPONENT_NAME s)
      (COMPONENT_INSTANCE_INDEX s) (_framework_support_map s) (_current_framework s)
      (_request_util s) (_default_formatter s) (_logger s) (store s)
      (base_object_common s) f (logging_root s)
      (loggerDict s) (configurator_instance s) (instrumented s).

Definition set_logging_root (l : logger) (s : state) : state :=
    mkState (ENABLE_JSON_LOGGING s) (ENABLE_JSON_LOGGING_DEBUG s)
      (CREATE_CORRELATION_ID_IF_NOT_EXISTS s)
      (CORRELATION_ID_HEADERS s) (COMPONENT_ID s) (COMPONENT_NAME s)
      (COMPONENT_INSTANCE_INDEX s) (_framework_support_map s) (_current_framework s)
      (_request_util s) (_default_formatter s) (_logger s) (store s)
      (base_object_common s) (logging_defaultFormatter s) l
      (loggerDict s) (configurator_instance s) (instrumented s).

Definition set_loggerDict (l : list logger) (s : state) : state :=
    mkState (ENABLE_JSON_LOGGING s) (ENABLE_JSON_LOGGING_DEBUG s)
      (CREATE_CORRELATION_ID_IF_NOT_EXISTS s)
      (CORRELATION_ID_HEADERS s) (COMPONENT_ID s) (COMPONENT_NAME s)
      (COMPONENT_INSTANCE_INDEX s) (_framework_support_map s) (_current_framework s)
      (_request_util s) (_default_formatter s) (_logger s) (store s)
      (base_object_common s) (logging_defaultFormatter s) (logging_root s)
      l (configurator_instance s) (instrumented s).

Definition set_configurator_instance (m : gmap string logger) (s : state) : state :=
    mkState (ENABLE_JSON_LOGGING s) (ENABLE_JSON_LOGGING_DEBUG s)
      (CREATE_CORRELATION_ID_IF_NOT_EXISTS s)
      (CORRELATION_ID_HEADERS s) (COMPONENT_ID s) (COMPONENT_NAME s)
      (COMPONENT_INSTANCE_INDEX s) (_framework_support_map s) (_current_framework s)
      (_request_util s) (_default_formatter s) (_logger s) (store s)
      (base_object_common s) (logging_defaultFormatter s) (logging_root s)
      (loggerDict s) m (instrumented s).

Definition set_instrumented (l : list instrumentation) (s : state) : state :=
    mkState (ENABLE_JSON_LOGGING s) (ENABLE_JSON_LOGGING_DEBUG s)
      (CREATE_CORRELATION_ID_IF_NOT_EXISTS s)
      (CORRELATION_ID_HEADERS s) (COMPONENT_ID s) (COMPONENT_NAME s)
      (COMPONENT_INSTANCE_INDEX s) (_framework_support_map s) (_current_framework s)
      (_request_util s) (_default_formatter s) (_logger s) (store s)
      (base_object_common s) (logging_defaultFormatter s) (logging_root s)
      (loggerDict s) (configurator_instance s) l.

  (** A caller assigning the three component globals. *)
Definition set_component (id name index : value) (s : state) : state :=
    mkState (ENABLE_JSON_LOGGING s) (ENABLE_JSON_LOGGING_DEBUG s)
      (CREATE_CORRELATION_ID_IF_NOT_EXISTS s)
      (CORRELATION_ID_HEADERS s) id name index
      (_framework_support_map s) (_current_framework s)
      (_request_util s) (_default_formatter s) (_logger s) (store s)
      (base_object_common s) (logging_defaultFormatter s) (logging_root s)
      (loggerDict s) (configurator_instance s) (instrumented s).

  (** A caller assigning [CREATE_CORRELATION_ID_IF_NOT_EXISTS]. *)
Definition set_create_correlation_id (b : bool) (s : state) : state :=
    mkState (ENABLE_JSON_LOGGING s) (ENABLE_JSON_LOGGING_DEBUG s) b
      (CORRELATION_ID_HEADERS s) (COMPONENT_ID s) (COMPONENT_NAME s)
      (COMPONENT_INSTANCE_INDEX s)
      (_framework_support_map s) (_current_framework s)
      (_request_util s) (_default_formatter s) (_logger s) (store s)
      (base_object_common s) (logging_defaultFormatter s) (logging_root s)
      (loggerDict s) (configurator_instance s) (instrumented s).

  (** Statements run in a state and either return or raise; what they wrote
      before raising stays written. *)
Definition M (A : Type) : Type := state -> result A * state.

Definition ret {A} (a : A) : M A := fun s => (Ok a, s).
Definition raise {A} (e : exn) : M A := fun s => (Raise e, s).
Definition bind {A B} (c : M A) (k : A -> M B) : M B :=
    fun s => match c s with
             | (Ok a, s') => k a s'
             | (Raise e, s') => (Raise e, s')
             end.
Definition get : M state := fun s => (Ok s, s).
Definition modify (f : state -> state) : M unit := fun s => (Ok tt, f s).
Definition when (b : bool) (c : M unit) : M unit := if b then c else ret tt.

#[global] Instance M_ret : MRet M := @ret.
#[global] Instance M_bind : MBind M := fun A B k c => bind c k.

  (** [_logger.warning(...)] and its siblings. *)
Definition log (l : log_level) (msg : string) : M unit :=
    modify (fun s => set_logger (_logger s ++ [(l, msg)]) s).

End State.
Export State.


(** ** Registry, formatter construction and initialisation *)

Module JsonLogging.

  (** [str.lower()] on names made of ASCII characters, where it folds the
      letters A-Z and nothing else.  On other names [str.lower()] also folds
      letters this definition leaves alone, so every property that depends on
      the folded name is stated for ASCII names ([ascii_only]). *)
Definition lower_ascii (c : Ascii.ascii) : Ascii.ascii :=
    let n := Ascii.nat_of_ascii c in
    if ((65 <=? n) && (n <=? 90))%nat then Ascii.ascii_of_nat (n + 32) else c.

Fixpoint lower (s : string) : string :=
    match s with
    | EmptyString => EmptyString
    | String c s' => String (lower_ascii c) (lower s')
    end.

  (** A name made of ASCII characters only: every byte is below 128. *)
Definition ascii_char (c : Ascii.ascii) : bool :=
    (Ascii.nat_of_ascii c <? 128)%nat.

Fixpoint ascii_only (s : string) : bool :=
    match s with
    | EmptyString => true
    | String c s' => ascii_char c && ascii_only s'
    end.

  (** Modelled from the spec: [util.validate_subclass], which is not in the
      translated file.  The spec has registration validate "each class
      reference against its expected capability contract" and lists "adapter
      classes failing capability validation" among the errors raised to the
      caller. *)
Definition validate_subclass (subclass : pyclass) (superclass : string) : M unit :=
    if issubclass subclass superclass then mret tt
    else raise (RuntimeError (cls_name subclass +:+ " is not a subclass of " +:+ superclass)).

  (** [register_framework_support(name, app_configurator,
      app_request_instrumentation_configurator, request_adapter_class,
      response_adapter_class)]. *)
Definition register_framework_support (name : option string)
      (app_configurator : option pyclass)
      (app_request_instrumentation_configurator : pyclass)
      (request_adapter_class response_adapter_class : pyclass) : M unit :=
    match name with
    | None => raise (RuntimeError "framework name can not be null or empty")
    | Some name =>
      if negb (truthy_str name)
      then raise (RuntimeError "framework name can not be null or empty")
      else
        validate_subclass request_adapter_class RequestAdapter_name;;
        validate_subclass response_adapter_class ResponseAdapter_name;;
        validate_subclass app_request_instrumentation_configurator
          AppRequestInstrumentationConfigurator_name;;
        match app_configurator with
        | Some c => validate_subclass c FrameworkConfigurator_name
        | None => mret tt
        end;;
        let name := lower name in
        s ← get;
        when (bool_decide (is_Some (_framework_support_map s !! name))
              && ENABLE_JSON_LOGGING_DEBUG s)
          (log WARNING ("Re-register framework " +:+ name));;
        modify (fun s =>
          set_framework_support_map
            (<[name := mkEntry app_configurator
                         app_request_instrumentation_configurator
                         request_adapter_class response_adapter_class]>
               (_framework_support_map s)) s)
    end.

  (** Attribute lookup [self.base_object_common]: the instance's own
      attribute if it has one, the class attribute otherwise.  No subclass of
      [BaseJSONFormatter] in the module defines the attribute again, so the
      class attribute is the same dict for all of them. *)
Definition common_of (self : formatter) (s : state) : loc :=
    default (base_object_common s) (fmt_common self).

  (** [d[key] = v] on the dict object at [l]. *)
Definition setitem (l : loc) (key : string) (v : value) : M unit :=
    modify (fun s => set_store (<[l := <[key := v]> (default ∅ (store s !! l))]> (store s)) s).

Definition ne_EMPTY_VALUE (v : value) : bool :=
    match v with
    | VStr s => negb (String.eqb s EMPTY_VALUE)
    | _ => true
    end.

  (** [BaseJSONFormatter.__init__], on a fresh instance of class [c]. *)
Definition BaseJSONFormatter_init (c : pyclass) : M formatter :=
    let self := mkFormatter c None in
    s ← get;
    when (truthy (COMPONENT_ID s) && ne_EMPTY_VALUE (COMPONENT_ID s))
      (setitem (common_of self s) "component_id" (COMPONENT_ID s));;
    when (truthy (COMPONENT_NAME s) && ne_EMPTY_VALUE (COMPONENT_NAME s))
      (setitem (common_of self s) "component_name" (COMPONENT_NAME s));;
    when (truthy (COMPONENT_INSTANCE_INDEX s) && ne_EMPTY_VALUE (COMPONENT_INSTANCE_INDEX s))
      (setitem (common_of self s) "component_instance_idx" (COMPONENT_INSTANCE_INDEX s));;
    mret self.

  (** [c()] for a formatter class: classes below [BaseJSONFormatter] run its
      [__init__]; other formatter classes belong to the host or the caller
      and leave the module's state alone.  Calling [None] is a type error. *)
Definition construct (c : option pyclass) : M formatter :=
    match c with
    | None => raise (TypeError "'NoneType' object is not callable")
    | Some c =>
      if issubclass c "BaseJSONFormatter" then BaseJSONFormatter_init c
      else mret (mkFormatter c None)
    end.

Fixpoint install_on_handlers (c : option pyclass) (hs : list (option formatter))
      : M (list (option formatter)) :=
    match hs with
    | [] => mret []
    | _ :: hs' =>
      f ← construct c;
      rest ← install_on_handlers c hs';
      mret (Some f :: rest)
    end.

  (** Modelled from the spec: [util.update_formatter_for_loggers], which is
      not in the translated file.  The spec has initialisation install the
      formatter "onto every already-created logger instance at call time":
      every handler of every given logger gets a new instance of the class. *)
Fixpoint update_formatter_for_loggers (loggers : list logger) (c : option pyclass)
      : M (list logger) :=
    match loggers with
    | [] => mret []
    | l :: ls =>
      hs ← install_on_handlers c (handlers l);
      rest ← update_formatter_for_loggers ls c;
      mret (mkLogger hs (level l) (has_parent l) :: rest)
    end.

  (** [config_root_logger()]. *)
Definition config_root_logger : M unit :=
    s ← get;
    match handlers (logging_root s) with
    | [] =>
      log ERROR "No logging handlers found for root logger. Please made sure that you call this after you called logging.basicConfig() or logging.getLogger()"
    | _ =>
      if ENABLE_JSON_LOGGING s then
        when (ENABLE_JSON_LOGGING_DEBUG s)
          (log DEBUG "Update root logger to using JSONLogFormatter");;
        ls ← update_formatter_for_loggers [logging_root s] (_default_formatter s);
        match ls with
        | [r] => modify (set_logging_root r)
        | _ => mret tt
        end
      else mret tt
    end.

  (** What a caller sees of [cls().config(...)]. *)
Definition call_config (c : pyclass) : M unit :=
    match cls_config_raises c with
    | Some e => raise e
    | None => mret tt
    end.

Definition str_of_name (framework_name : option string) : string :=
    match framework_name with None => "None" | Some n => n end.

  (** [__init(framework_name=None, custom_formatter=None, enable_json=False)]. *)
Definition __init (framework_name : option string) (custom_formatter : option pyclass)
      (enable_json : bool) : M unit :=
    modify (set_ENABLE_JSON_LOGGING enable_json);;
    s ← get;
    match _current_framework s with
    | Some _ => raise (RuntimeError "Can not call init more than once")
    | None =>
      match custom_formatter with
      | Some c =>
        if negb (issubclass c Formatter_name)
        then raise (ValueError "custom_formatter is not subclass of logging.Formatter")
        else mret tt
      | None => mret tt
      end;;
      when (ENABLE_JSON_LOGGING_DEBUG s)
        (log INFO ("init framework " +:+ str_of_name framework_name));;
      (if truthy_opt_str framework_name then
         let framework_name := lower (str_of_name framework_name) in
         match _framework_support_map s !! framework_name with
         | None => raise (RuntimeError (framework_name +:+ " is not a supported framework"))
         | Some e =>
           modify (set_current_framework (Some e));;
           modify (set_request_util
                     (Some (mkRequestUtil (request_adapter_class e)
                                          (response_adapter_class e))));;
           s1 ← get;
           match app_configurator e with
           | Some c => when (ENABLE_JSON_LOGGING s1) (call_config c)
           | None => mret tt
           end;;
           modify (set_default_formatter
                     (Some (default JSONLogWebFormatter custom_formatter)))
         end
       else
         modify (set_default_formatter
                   (Some (default JSONLogFormatter custom_formatter))));;
      s2 ← get;
      (if negb enable_json && negb (ENABLE_JSON_LOGGING s2) then
         log WARNING "JSON format is not enabled, normal log will be in plain text but request logging still in JSON format! To enable set ENABLE_JSON_LOGGING env var to either one of following values: ['true', '1', 'y', 'yes']"
       else
         modify (set_ENABLE_JSON_LOGGING true);;
         f ← construct (_default_formatter s2);
         modify (set_logging_defaultFormatter (Some f)));;
      when (ENABLE_JSON_LOGGING_DEBUG s)
        (log DEBUG "Update all existing logger to using JSONLogFormatter");;
      s3 ← get;
      ls ← update_formatter_for_loggers (loggerDict s3) (_default_formatter s3);
      modify (set_loggerDict ls)
    end.

Definition init_non_web (framework_name : option string)
      (custom_formatter : option pyclass) (enable_json : bool) : M unit :=
    __init framework_name custom_formatter enable_json.

Definition init_flask (custom_formatter : option pyclass) (enable_json : bool) : M unit :=
    __init (Some "flask") custom_formatter enable_json.
Definition init_sanic (custom_formatter : option pyclass) (enable_json : bool) : M unit :=
    __init (Some "sanic") custom_formatter enable_json.
Definition init_quart (custom_formatter : option pyclass) (enable_json : bool) : M unit :=
    __init (Some "quart") custom_formatter enable_json.
Definition init_connexion (custom_formatter : option pyclass) (enable_json : bool) : M unit :=
    __init (Some "connexion") custom_formatter enable_json.
Definition init_fastapi (custom_formatter : option pyclass) (enable_json : bool) : M unit :=
    __init (Some "fastapi") custom_formatter enable_json.

  (** [cls()] for an instrumentation configurator: the class keeps its one
      instance in [_instance], together with the request logger it made. *)
Definition configurator_of (c : pyclass) : M logger :=
    s ← get;
    match configurator_instance s !! cls_name c with
    | Some l => mret l
    | None =>
      let l := mkLogger [] None true in
      modify (fun s => set_configurator_instance
                         (<[cls_name c := l]> (configurator_instance s)) s);;
      mret l
    end.

  (** [init_request_instrument(app=None, custom_formatter=None,
      exclude_url_patterns=[],
      request_response_data_extractor_class=DefaultRequestResponseDTO)]. *)
Definition init_request_instrument (app : string) (custom_formatter : option pyclass)
      (exclude_url_patterns : list string)
      (request_response_data_extractor_class : pyclass) : M unit :=
    s ← get;
    match _current_framework s with
    | None =>
      raise (RuntimeError "please init the logging first, call init(framework_name) first")
    | Some cf =>
      match custom_formatter with
      | Some c =>
        if negb (issubclass c Formatter_name)
        then raise (ValueError "custom_formatter is not subclass of logging.Formatter")
        else mret tt
      | None => mret tt
      end;;
      (if negb (issubclass request_response_data_extractor_class "RequestResponseDTOBase")
       then raise (ValueError "request_response_data_extractor_class is not subclass of json_logging.RequestInfoBase")
       else mret tt);;
      let cls := app_request_instrumentation_configurator cf in
      request_logger ← configurator_of cls;
      call_config cls;;
      modify (fun s => set_instrumented
                (instrumented s ++
                   [mkInstrumentation app cls request_response_data_extractor_class
                      exclude_url_patterns]) s);;
      let formatter := default JSONRequestLogFormatter custom_formatter in
      let request_logger :=
        mkLogger (handlers request_logger ++ [None]) (Some 10) (has_parent request_logger) in
      ls ← update_formatter_for_loggers [request_logger] (Some formatter);
      match ls with
      | [l] =>
        modify (fun s => set_configurator_instance
                  (<[cls_name cls := mkLogger (handlers l) (level l) false]>
                     (configurator_instance s)) s)
      | _ => mret tt
      end
    end.

  (** [get_request_logger()]. *)
Definition get_request_logger : M logger :=
    s ← get;
    match _current_framework s with
    | None =>
      raise (RuntimeError "request_logger is only available if json_logging is inited with a web app, call init_<framework_name>() to do that")
    | Some cf =>
      match configurator_instance s
              !! cls_name (app_request_instrumentation_configurator cf) with
      | None =>
        raise (RuntimeError "please init request instrument first, call init_request_instrument(app) to do that")
      | Some l => mret l
      end
    end.

  (** The classes of a framework-support module, which satisfy the contracts
      they are registered under. *)
Definition support_class (name base : string) : pyclass :=
    mkClass name [name; base; "object"] None.

Definition register_support (fw prefix : string) (with_app_configurator : bool) : M unit :=
    register_framework_support (Some fw)
      (if with_app_configurator
       then Some (support_class (prefix +:+ "AppConfigurator") FrameworkConfigurator_name)
       else None)
      (support_class (prefix +:+ "AppRequestInstrumentationConfigurator")
         AppRequestInstrumentationConfigurator_name)
      (support_class (prefix +:+ "RequestAdapter") RequestAdapter_name)
      (support_class (prefix +:+ "ResponseAdapter") ResponseAdapter_name).

  (** The registrations at the end of the module body. *)
Definition module_body (is_fastapi_present : bool) : M unit :=
    register_support "flask" "Flask" false;;
    register_support "sanic" "Sanic" true;;
    register_support "quart" "Quart" false;;
    register_support "connexion" "Connexion" false;;
    when is_fastapi_present (register_support "fastapi" "FastAPI" false).

  (** The state once the module is imported. *)
Definition imported (json is_fastapi_present : bool) : state :=
    snd (module_body is_fastapi_present (initial json)).

End JsonLogging.

(** ** Adapters and the correlation-id resolver *)

(** The capability interface of [json_logging.framework_base], which is not
    part of the translated file: uniform accessors over a framework's
    request and response objects. *)
Class RequestAdapter (Req : Type) : Type := {
  get_http_header : Req -> string -> value -> value;
  get_remote_user : Req -> value;
  get_path : Req -> value;
  get_protocol : Req -> value;
  get_method : Req -> value;
  get_remote_ip : Req -> value;
  get_remote_port : Req -> value;
  get_content_length : Req -> value;
  get_correlation_id_in_request_context : Req -> option string;
  set_correlation_id : Req -> string -> Req
}.

Class ResponseAdapter (Resp : Type) : Type := {
  get_status_code : Resp -> value;
  get_response_size : Resp -> value;
  get_content_type : Resp -> value
}.

(** An adapter whose framework stores attributes on the request object:
    what the setter caches, the getter reads back. *)
Class CachingAdapter (Req : Type) `{RequestAdapter Req} : Prop := {
  get_set_correlation_id :
    forall (r : Req) (v : string),
      get_correlation_id_in_request_context (set_correlation_id r v) = Some v
}.

Module Resolver.

  (** The calls a resolution makes on its collaborators, in order. *)
Inductive call : Type :=
  | ReadCached
  | ReadHeader (name : string)
  | WriteCached (v : string)
  | Generate.

  (** What a resolution leaves behind: the id, the request object as it now
      is, the generator's position, and the calls made. *)
Record resolution (Req : Type) : Type := mkResolution {
    id : string;
    request_after : option Req;
    generator_after : nat;
    calls : list call
  }.
  Arguments mkResolution {Req}.
  Arguments id {Req}.
  Arguments request_after {Req}.
  Arguments generator_after {Req}.
  Arguments calls {Req}.

  Section WithAdapter.
    Context {Req : Type} `{RequestAdapter Req}.
    (** [CORRELATION_ID_GENERATOR]: the n-th identifier it hands out. *)
    Variable CORRELATION_ID_GENERATOR : nat -> string.
    (** Whether ids are generated where there is no request. *)
    Variable generate_outside_request : bool.

    (** Step 2: the first configured header with a non-empty value, and the
        header reads made on the way. *)
Fixpoint scan_headers (request : Req) (names : list string)
        : option string * list call :=
      match names with
      | [] => (None, [])
      | n :: rest =>
        match get_http_header request n VNone with
        | VStr v =>
          if truthy_str v then (Some v, [ReadHeader n])
          else let '(r, cs) := scan_headers request rest in (r, ReadHeader n :: cs)
        | _ => let '(r, cs) := scan_headers request rest in (r, ReadHeader n :: cs)
        end
      end.

    (** Modelled from the spec: [util.RequestUtil.get_correlation_id], which
        is not in the translated file; the module's [get_correlation_id] and
        its formatters delegate to it.  The spec's four steps: return the id
        the adapter already reports on the request; else the first non-empty
        configured header, cached through the setter; else, when generation
        is enabled, a new id, cached; else the empty-value sentinel.  With no
        request, steps 1 and 2 are skipped and an id is generated only under
        the policy for non-request contexts. *)
Definition resolve (s : state) (request : option Req) (within_formatter : bool)
        (generator : nat) : resolution Req :=
      match request with
      | None =>
        if generate_outside_request && CREATE_CORRELATION_ID_IF_NOT_EXISTS s
        then mkResolution (CORRELATION_ID_GENERATOR generator) None (S generator) [Generate]
        else mkResolution EMPTY_VALUE None generator []
      | Some r =>
        match get_correlation_id_in_request_context r with
        | Some v => mkResolution v (Some r) generator [ReadCached]
        | None =>
          match scan_headers r (CORRELATION_ID_HEADERS s) with
          | (Some v, cs) =>
            mkResolution v (Some (set_correlation_id r v)) generator
              (ReadCached :: cs ++ [WriteCached v])
          | (None, cs) =>
            if CREATE_CORRELATION_ID_IF_NOT_EXISTS s then
              let v := CORRELATION_ID_GENERATOR generator in
              mkResolution v (Some (set_correlation_id r v)) (S generator)
                (ReadCached :: cs ++ [Generate; WriteCached v])
            else mkResolution EMPTY_VALUE (Some r) generator (ReadCached :: cs)
          end
        end
      end.

    (** The module's [get_correlation_id(request=None)]. *)
Definition get_correlation_id (s : state) (request : option Req) (generator : nat)
        : result (resolution Req) :=
      match _request_util s with
      | None => Raise (AttributeError "'NoneType' object has no attribute 'get_correlation_id'")
      | Some _ => Ok (resolve s request false generator)
      end.

  End WithAdapter.

End Resolver.

(** ** Log records and the formatter classes *)

Module LogRecord.

  (** A [logging.LogRecord]: the attributes the host gives every record,
      whatever else was attached to it ([extra]), the text [getMessage()]
      returns, and the carrier a request log statement attaches.  An
      exception is kept as the traceback text it formats to. *)
Record t (Req Resp : Type) : Type := mk {
    name : value;
    msg : value;
    args : value;
    levelname : value;
    levelno : value;
    pathname : value;
    filename : value;
    module : value;
    exc_info : option string;
    exc_text : option string;
    stack_info : value;
    lineno : value;
    funcName : value;
    created : value;
    msecs : value;
    relativeCreated : value;
    thread : value;
    threadName : value;
    processName : value;
    process : value;
    extra : gmap string value;
    getMessage : string;
    request_response_data : option (Carrier.dto Req Resp)
  }.
  Arguments name {Req Resp}. Arguments msg {Req Resp}. Arguments args {Req Resp}.
  Arguments levelname {Req Resp}. Arguments levelno {Req Resp}.
  Arguments pathname {Req Resp}. Arguments filename {Req Resp}.
  Arguments module {Req Resp}. Arguments exc_info {Req Resp}.
  Arguments exc_text {Req Resp}. Arguments stack_info {Req Resp}.
  Arguments lineno {Req Resp}. Arguments funcName {Req Resp}.
  Arguments created {Req Resp}. Arguments msecs {Req Resp}.
  Arguments relativeCreated {Req Resp}. Arguments thread {Req Resp}.
  Arguments threadName {Req Resp}. Arguments processName {Req Resp}.
  Arguments process {Req Resp}. Arguments extra {Req Resp}.
  Arguments getMessage {Req Resp}. Arguments request_response_data {Req Resp}.

Definition opt_value (o : option string) (wrap : string -> value) : value :=
    match o with None => VNone | Some s => wrap s end.

  (** [record.__dict__]: the host's attributes, then the attached ones. *)
Definition __dict__ {Req Resp} (r : t Req Resp) : gmap string value :=
    list_to_map
      [("name", name r); ("msg", msg r); ("args", args r);
       ("levelname", levelname r); ("levelno", levelno r);
       ("pathname", pathname r); ("filename", filename r);
       ("module", module r); ("exc_info", opt_value (exc_info r) VObj);
       ("exc_text", opt_value (exc_text r) VStr);
       ("stack_info", stack_info r); ("lineno", lineno r);
       ("funcName", funcName r); ("created", created r); ("msecs", msecs r);
       ("relativeCreated", relativeCreated r); ("thread", thread r);
       ("threadName", threadName r); ("processName", processName r);
       ("process", process r)]
    ∪ match request_response_data r with
      | Some c => {[ "request_response_data" := VDict (map_to_list (Carrier.items c)) ]}
      | None => ∅
      end
    ∪ extra r.

End LogRecord.

Module Formatters.
  Import JsonLogging.

  Section WithAdapters.
    Context {U : UtilModule} {Req Resp : Type}.
    Context `{RA : RequestAdapter Req} `{PA : ResponseAdapter Resp}.
    Variable CORRELATION_ID_GENERATOR : nat -> string.
    Variable generate_outside_request : bool.

Abbreviation record := (LogRecord.t Req Resp).
Abbreviation resolve := (Resolver.resolve CORRELATION_ID_GENERATOR generate_outside_request).

    (** A log object under construction.  [dict.update(other)] lets the
        entries of [other] win. *)
Definition update (obj other : gmap string value) : gmap string value :=
      other ∪ obj.

Definition easy_or_repr (v : value) : value :=
      match v with VObj r => VStr r | _ => v end.

    (** [fields.update(record.props)] for a dict given by its items. *)
Definition update_items (obj : gmap string value) (d : list (string * value))
        : gmap string value :=
      foldl (fun m kv => <[kv.1 := kv.2]> m) obj d.

    (** [BaseJSONFormatter._get_extra_fields(record)]. *)
Definition _get_extra_fields (r : record) : gmap string value :=
      let fields : gmap string value :=
        if truthy (LogRecord.args r) then {[ "msg" := LogRecord.msg r ]} else ∅ in
      let fields :=
        update fields
          (easy_or_repr <$>
             filter (fun kv => kv.1 ∉ RECORD_ATTR_SKIP_LIST) (LogRecord.__dict__ r)) in
      match LogRecord.__dict__ r !! "props" with
      | Some (VDict d) => update_items fields d
      | _ => fields
      end.

    (** [BaseJSONFormatter._format_log_object(record, request_util)], run
        when the clock reads [utcnow]. *)
Definition Base_format_log_object (s : state) (self : formatter) (r : record)
        (utcnow : DateTime.datetime) : gmap string value :=
      let base_obj : gmap string value :=
        <["written_ts" := VInt (epoch_nano_second utcnow)]>
          {[ "written_at" := VStr (iso_time_format utcnow) ]} in
      let base_obj := update base_obj (default ∅ (store s !! common_of self s)) in
      update base_obj (_get_extra_fields r).

    (** The formatters hand back the log object together with what resolving
        a correlation id did to the request and to the generator. *)
Record formatted : Type := mkFormatted {
      log_object : gmap string value;
      request_now : option Req;
      generator_now : nat
    }.

    (** The explicit block of the request formatter, given the request as
        it is once the correlation id [cid] has been resolved on it. *)
Definition request_fields (request : Req) (response : Resp) (length : value)
        (cid : string) : gmap string value :=
      list_to_map
        [("type", VStr "request");
         ("correlation_id", VStr cid);
         ("remote_user", get_remote_user request);
         ("request", get_path request);
         ("referer", get_http_header request "referer" (VStr EMPTY_VALUE));
         ("x_forwarded_for",
          get_http_header request "x-forwarded-for" (VStr EMPTY_VALUE));
         ("protocol", get_protocol request);
         ("method", get_method request);
         ("remote_ip", get_remote_ip request);
         ("request_size_b", VInt (parse_int length (-1)));
         ("remote_host", get_remote_ip request);
         ("remote_port", get_remote_port request);
         ("response_status", get_status_code response);
         ("response_size_b", get_response_size response);
         ("response_content_type", get_content_type response)].

    (** [JSONRequestLogFormatter._format_log_object(record, request_util)].
        The request adapter comes from the argument, the response adapter
        from the module's global [_request_util]. *)
Definition Request_format_log_object (s : state) (self : formatter) (r : record)
        (request_util : option RequestUtil) (utcnow : DateTime.datetime)
        (generator : nat) : result formatted :=
      let json_log_object := Base_format_log_object s self r utcnow in
      match request_util with
      | None => Raise (AttributeError "'NoneType' object has no attribute 'request_adapter'")
      | Some _ =>
        match _request_util s with
        | None => Raise (AttributeError "'NoneType' object has no attribute 'response_adapter'")
        | Some _ =>
          match LogRecord.request_response_data r with
          | None => Raise (AttributeError "'LogRecord' object has no attribute 'request_response_data'")
          | Some data =>
            let request := Carrier._request data in
            match Carrier._response data with
            | None => Raise (AttributeError "object has no attribute '_response'")
            | Some response =>
              let length := get_content_length request in
              let res := resolve s (Some request) false generator in
              let request := default request (Resolver.request_after res) in
              let explicit := request_fields request response length (Resolver.id res) in
              let json_log_object := update json_log_object explicit in
              let json_log_object := update json_log_object (Carrier.items data) in
              Ok (mkFormatted json_log_object (Some request) (Resolver.generator_after res))
            end
          end
        end
      end.

Definition sanitize_char (c : Ascii.ascii) : Ascii.ascii :=
      let n := Ascii.nat_of_ascii c in
      if ((n =? 10) || (n =? 13) || (n =? 9))%nat then Ascii.ascii_of_nat 95 else c.

Fixpoint sanitize (s : string) : string :=
      match s with
      | EmptyString => EmptyString
      | String c s' => String (sanitize_char c) (sanitize s')
      end.

    (** [_sanitize_log_msg(record)]. *)
Definition _sanitize_log_msg (r : record) : string :=
      sanitize (LogRecord.getMessage r).

    (** [JSONLogFormatter.get_exc_fields(record)]; [format_exception] is
        the stored traceback text. *)
Definition get_exc_fields (r : record) : gmap string value :=
      let exc_info :=
        match LogRecord.exc_info r with
        | Some tb => VStr tb
        | None => LogRecord.opt_value (LogRecord.exc_text r) VStr
        end in
      <["filename" := LogRecord.filename r]> {[ "exc_info" := exc_info ]}.

    (** [JSONLogFormatter._format_log_object(record, request_util)]. *)
Definition Log_format_log_object (s : state) (self : formatter) (r : record)
        (utcnow : DateTime.datetime) : gmap string value :=
      let json_log_object := Base_format_log_object s self r utcnow in
      let json_log_object :=
        update json_log_object
          (list_to_map
             [("msg", VStr (_sanitize_log_msg r));
              ("type", VStr "log");
              ("logger", LogRecord.name r);
              ("thread", LogRecord.threadName r);
              ("level", LogRecord.levelname r);
              ("module", LogRecord.module r);
              ("line_no", LogRecord.lineno r)]) in
      if bool_decide (is_Some (LogRecord.exc_info r))
         || truthy_opt_str (LogRecord.exc_text r)
      then update json_log_object (get_exc_fields r)
      else json_log_object.

    (** [JSONLogWebFormatter._format_log_object(record, request_util)]. *)
Definition Web_format_log_object (s : state) (self : formatter) (r : record)
        (request_util : option RequestUtil) (utcnow : DateTime.datetime)
        (generator : nat) : result formatted :=
      let json_log_object := Log_format_log_object s self r utcnow in
      if bool_decide (is_Some (json_log_object !! "correlation_id"))
      then Ok (mkFormatted json_log_object None generator)
      else
        match request_util with
        | None =>
          Raise (AttributeError "'NoneType' object has no attribute 'get_correlation_id'")
        | Some _ =>
          let res := resolve s None true generator in
          Ok (mkFormatted
                (update json_log_object {[ "correlation_id" := VStr (Resolver.id res) ]})
                None (Resolver.generator_after res))
        end.

    (** [self._format_log_object(record, request_util=_request_util)] as
        [BaseJSONFormatter.format] calls it: the method of the first class
        along the instance's resolution order that defines one. *)
Definition _format_log_object (s : state) (self : formatter) (r : record)
        (utcnow : DateTime.datetime) (generator : nat) : result formatted :=
      let c := fmt_class self in
      if issubclass c "JSONLogWebFormatter"
      then Web_format_log_object s self r (_request_util s) utcnow generator
      else if issubclass c "JSONLogFormatter"
      then Ok (mkFormatted (Log_format_log_object s self r utcnow) None generator)
      else if issubclass c "JSONRequestLogFormatter"
      then Request_format_log_object s self r (_request_util s) utcnow generator
      else Ok (mkFormatted (Base_format_log_object s self r utcnow) None generator).

  End WithAdapters.

End Formatters.

(** ** The module's public operations as a transition system *)

Module Ops.
  Import JsonLogging.

Inductive op : Type :=
  | Register (name : option string) (app_configurator : option pyclass)
      (app_request_instrumentation_configurator request_adapter_class
         response_adapter_class : pyclass)
  | ConfigRootLogger
  | InitNonWeb (framework_name : option string) (custom_formatter : option pyclass)
      (enable_json : bool)
  | InitFlask (custom_formatter : option pyclass) (enable_json : bool)
  | InitSanic (custom_formatter : option pyclass) (enable_json : bool)
  | InitQuart (custom_formatter : option pyclass) (enable_json : bool)
  | InitConnexion (custom_formatter : option pyclass) (enable_json : bool)
  | InitFastapi (custom_formatter : option pyclass) (enable_json : bool)
  | InitRequestInstrument (app : string) (custom_formatter : option pyclass)
      (exclude_url_patterns : list string)
      (request_response_data_extractor_class : pyclass)
  | GetRequestLogger
  | GetCorrelationId
  | NewFormatter (c : pyclass).

Definition is_init (o : op) : bool :=
    match o with
    | InitNonWeb _ _ _ | InitFlask _ _ | InitSanic _ _ | InitQuart _ _
    | InitConnexion _ _ | InitFastapi _ _ => true
    | _ => false
    end.

  (** One call, as far as the module's state is concerned.  Resolving a
      correlation id writes to the request only. *)
Definition step (o : op) : M unit :=
    match o with
    | Register n a i rq rs => register_framework_support n a i rq rs
    | ConfigRootLogger => config_root_logger
    | InitNonWeb n c e => init_non_web n c e
    | InitFlask c e => init_flask c e
    | InitSanic c e => init_sanic c e
    | InitQuart c e => init_quart c e
    | InitConnexion c e => init_connexion c e
    | InitFastapi c e => init_fastapi c e
    | InitRequestInstrument a c p x => init_request_instrument a c p x
    | GetRequestLogger => get_request_logger;; mret tt
    | GetCorrelationId =>
      s ← get;
      match _request_util s with
      | None => raise (AttributeError "'NoneType' object has no attribute 'get_correlation_id'")
      | Some _ => mret tt
      end
    | NewFormatter c => construct (Some c);; mret tt
    end.

  (** A caller that goes on after an exception. *)
Fixpoint run (ops : list op) (s : state) : state :=
    match ops with
    | [] => s
    | o :: rest => run rest (snd (step o s))
    end.

End Ops.

(** ** Concrete collaborators for worked examples *)

Module Sample.

Definition util : UtilModule :=
    {| iso_time_format := fun _ => "1970-01-01T00:00:00.000Z";
       epoch_nano_second := fun t => t * 1000;
       parse_int := fun v d => match v with VInt z => z | _ => d end |}.

  (** A request object that keeps its headers and, once set, a correlation
      id of its own. *)
Record request : Type := mkRequest {
    headers : list (string * string);
    cached : option string
  }.

Definition header (r : request) (name : string) : option string :=
    snd <$> List.find (fun kv => String.eqb (fst kv) name) (headers r).

#[global] Instance request_adapter : RequestAdapter request :=
    {| get_http_header := fun r n d => from_option VStr d (header r n);
       get_remote_user := fun _ => VStr "-";
       get_path := fun _ => VStr "/";
       get_protocol := fun _ => VStr "HTTP/1.1";
       get_method := fun _ => VStr "GET";
       get_remote_ip := fun _ => VStr "127.0.0.1";
       get_remote_port := fun _ => VInt 80;
       get_content_length := fun r => from_option VStr VNone (header r "content-length");
       get_correlation_id_in_request_context := cached;
       set_correlation_id := fun r v => mkRequest (headers r) (Some v) |}.

#[global] Instance response_adapter : ResponseAdapter unit :=
    {| get_status_code := fun _ => VInt 200;
       get_response_size := fun _ => VInt 2;
       get_content_type := fun _ => VStr "text/plain" |}.

#[global] Instance caching : CachingAdapter request :=
    {| get_set_correlation_id := fun _ _ => eq_refl |}.

Definition generator (n : nat) : string :=
    "id-" +:+ String (Ascii.ascii_of_nat (48 + n)) EmptyString.

  (** An ordinary record: [logging.getLogger("app").info("hello")]. *)
Definition record : LogRecord.t request unit :=
    LogRecord.mk request unit
      (VStr "app") (VStr "hello") VNone (VStr "INFO") (VInt 20)
      (VStr "/srv/app.py") (VStr "app.py") (VStr "app") None None VNone
      (VInt 12) (VStr "main") VNone VNone VNone (VInt 1) (VStr "MainThread")
      (VStr "MainProcess") (VInt 1) ∅ "hello" None.

  (** A finished request whose carrier was created with a custom [method]
      entry, and the record its request log statement produces. *)
Definition carrier : Carrier.dto request unit :=
    Carrier.on_request_complete (U := util)
      (Carrier.init (U := util)
         (mkRequest [("X-Correlation-ID", "abc-123")] None)
         {[ "method" := VStr "custom" ]} 0)
      tt 1500000.

Definition request_record : LogRecord.t request unit :=
    LogRecord.mk request unit
      (VStr "request-logger") (VStr "") VNone (VStr "INFO") (VInt 20)
      (VStr "/srv/app.py") (VStr "app.py") (VStr "app") None None VNone
      (VInt 40) (VStr "after_request") VNone VNone VNone (VInt 1)
      (VStr "MainThread") (VStr "MainProcess") (VInt 1) ∅ "" (Some carrier).

  (** Records with attributes attached through [extra=]: one with plain
      attributes, one with a [props] dict as well, and one logged from an
      exception handler. *)
Definition extra_record : LogRecord.t request unit :=
    LogRecord.mk request unit
      (VStr "app") (VStr "hello %s") (VList [VStr "ann"]) (VStr "INFO") (VInt 20)
      (VStr "/srv/app.py") (VStr "app.py") (VStr "app") None None VNone
      (VInt 12) (VStr "main") VNone VNone VNone (VInt 1) (VStr "MainThread")
      (VStr "MainProcess") (VInt 1)
      (<["user" := VStr "ann"]> (<["session" := VObj "<Session 7>"]> ∅))
      "hello ann" None.

Definition props_record : LogRecord.t request unit :=
    LogRecord.mk request unit
      (VStr "app") (VStr "hello") VNone (VStr "INFO") (VInt 20)
      (VStr "/srv/app.py") (VStr "app.py") (VStr "app") None None VNone
      (VInt 12) (VStr "main") VNone VNone VNone (VInt 1) (VStr "MainThread")
      (VStr "MainProcess") (VInt 1)
      (<["user" := VStr "ann"]>
         (<["props" := VDict [("user", VStr "bob"); ("name", VStr "x")]]> ∅))
      "hello" None.

Definition failed_record : LogRecord.t request unit :=
    LogRecord.mk request unit
      (VStr "app") (VStr "boom") VNone (VStr "ERROR") (VInt 40)
      (VStr "/srv/app.py") (VStr "app.py") (VStr "app")
      (Some "Traceback (most recent call last): ZeroDivisionError") None VNone
      (VInt 12) (VStr "main") VNone VNone VNone (VInt 1) (VStr "MainThread")
      (VStr "MainProcess") (VInt 1) ∅ "boom" None.

  (** A framework whose app configurator fails. *)
Definition failing_entry : entry :=
    mkEntry
      (Some (mkClass "BrokenAppConfigurator"
               ["BrokenAppConfigurator"; "FrameworkConfigurator"; "object"]
               (Some (RuntimeError "broken"))))
      (JsonLogging.support_class "XAppRequestInstrumentationConfigurator"
         AppRequestInstrumentationConfigurator_name)
      (JsonLogging.support_class "XRequestAdapter" RequestAdapter_name)
      (JsonLogging.support_class "XResponseAdapter" ResponseAdapter_name).

  (** The module after [init_flask(enable_json=True)]. *)
Definition flask_state : state :=
    snd (JsonLogging.init_flask None true (JsonLogging.imported false false)).

End Sample.

(** ** Vocabulary of the properties *)

Module Props.
  Import JsonLogging.

  (** [c] relates the state it starts in to the state it leaves, whether it
      returns or raises. *)
Definition preserves (R : state -> state -> Prop) {A} (c : M A) : Prop :=
    forall s, R s (snd (c s)).

  (** [Q] holds of what [c] returns or raises from [s] and of the state it
      leaves. *)
Definition wp {A} (c : M A) (Q : result A -> state -> Prop) (s : state) : Prop :=
    Q (fst (c s)) (snd (c s)).
  #[global] Arguments wp : simpl never.

  (** The configuration [__init] decides. *)
Definition same_configuration (s s' : state) : Prop :=
    _current_framework s' = _current_framework s
    /\ ENABLE_JSON_LOGGING s' = ENABLE_JSON_LOGGING s
    /\ _default_formatter s' = _default_formatter s.

  (** The module's configuration errors. *)
Definition already : exn := RuntimeError "Can not call init more than once".
Definition not_inited : exn :=
    RuntimeError "please init the logging first, call init(framework_name) first".
Definition no_name : exn := RuntimeError "framework name can not be null or empty".

  (** [custom_formatter] is absent or a formatter class. *)
Definition formatter_ok (custom_formatter : option pyclass) : bool :=
    from_option (fun c => issubclass c Formatter_name) true custom_formatter.

  (** Every class of a registration meets its contract. *)
Definition classes_valid (app_configurator : option pyclass)
      (instrumentation_configurator request_adapter response_adapter : pyclass) : bool :=
    issubclass request_adapter RequestAdapter_name
    && issubclass response_adapter ResponseAdapter_name
    && issubclass instrumentation_configurator AppRequestInstrumentationConfigurator_name
    && from_option (fun c => issubclass c FrameworkConfigurator_name) true app_configurator.

  (** The dict behind the class attribute. *)
Definition common_dict (s : state) : gmap string value :=
    default ∅ (store s !! base_object_common s).

  (** The class attribute names the same dict, which has lost no key. *)
Definition common_grows (s s' : state) : Prop :=
    base_object_common s' = base_object_common s
    /\ dom (common_dict s) ⊆ dom (common_dict s').

  (** A component global that the constructor copies. *)
Definition configured (v : value) : bool := truthy v && ne_EMPTY_VALUE v.

  (** The fifteen keys of the request formatter's explicit block. *)
Definition request_keys : list string :=
    ["type"; "correlation_id"; "remote_user"; "request"; "referer";
     "x_forwarded_for"; "protocol"; "method"; "remote_ip"; "request_size_b";
     "remote_host"; "remote_port"; "response_status"; "response_size_b";
     "response_content_type"].

  (** The seven keys of the Log layer. *)
Definition log_keys : list string :=
    ["msg"; "type"; "logger"; "thread"; "level"; "module"; "line_no"].

  (** The first three steps of a resolution find or make an id: one is on
      the request already, a configured header has one, or generation is
      on. *)
Definition obtains_id {Req : Type} `{RequestAdapter Req} (s : state) (r : Req) : Prop :=
    is_Some (get_correlation_id_in_request_context r)
    \/ is_Some (fst (Resolver.scan_headers r (CORRELATION_ID_HEADERS s)))
    \/ CREATE_CORRELATION_ID_IF_NOT_EXISTS s = true.

End Props.

(** ** Vocabulary of the further properties *)

Module ExtraProps.
  Import JsonLogging Ops Props.

  (** Everything a web initialisation decides. *)
Definition same_activation (s s' : state) : Prop :=
    same_configuration s s' /\ _request_util s' = _request_util s.

  (** An operation that is no initialisation for a web framework: anything
      but the [init_*] family, or [init_non_web] without a framework name. *)
Definition not_web_init (o : op) : bool :=
    match o with
    | InitNonWeb n _ _ => negb (truthy_opt_str n)
    | InitFlask _ _ | InitSanic _ _ | InitQuart _ _
    | InitConnexion _ _ | InitFastapi _ _ => false
    | _ => true
    end.

  (** The class [__init] makes the default formatter. *)
Definition selected_formatter (framework_name : option string)
      (custom_formatter : option pyclass) : pyclass :=
    default (if truthy_opt_str framework_name then JSONLogWebFormatter
             else JSONLogFormatter) custom_formatter.

Definition bad_formatter : exn :=
    ValueError "custom_formatter is not subclass of logging.Formatter".
Definition bad_extractor : exn :=
    ValueError "request_response_data_extractor_class is not subclass of json_logging.RequestInfoBase".
Definition no_request_logger : exn :=
    RuntimeError "request_logger is only available if json_logging is inited with a web app, call init_<framework_name>() to do that".
Definition no_root_handlers : string :=
    "No logging handlers found for root logger. Please made sure that you call this after you called logging.basicConfig() or logging.getLogger()".

  (** The frameworks the module body registers. *)
Definition registered (is_fastapi_present : bool) : gset string :=
    {[ "flask"; "sanic"; "quart"; "connexion" ]}
    ∪ (if is_fastapi_present then {[ "fastapi" ]} else ∅).

End ExtraProps.

(** * Properties *)

(** ** Timing formula of the carrier *)

Module TimeFacts.
  Import DateTime Carrier.

Lemma round_half_even_cases q r d :
    round_half_even q r d = q \/ (round_half_even q r d = q + 1 /\ d <= 2 * r).
  Proof.
    unfold round_half_even.
    destruct (d <? 2 * r) eqn:Hlt; simpl.
    - right. apply Z.ltb_lt in Hlt. lia.
    - destruct (d =? 2 * r) eqn:Heq; simpl; [|by left].
      apply Z.eqb_eq in Heq. destruct (Z.odd q); [right; lia | by left].
  Qed.

  (** The rounded quotient of [s * b + t] by [b] stays inside
      [[s, s + 1)] as long as the quotient is below [2^32]. *)
Lemma true_div_pos_window (b s t : Z) :
    0 < b < 2 ^ 21 -> 0 <= t < b -> 0 <= s -> s + 1 <= 2 ^ 32 ->
    0 < s * b + t ->
    exists m k, true_div_pos (s * b + t) b = (m, - k) /\ 0 < k /\
                s * 2 ^ k <= m < (s + 1) * 2 ^ k.
  Proof.
    intros Hb Ht Hs Hs32 Ha.
    set (a := s * b + t) in *.
    unfold true_div_pos.
    set (k1 := 53 + Z.log2 b - Z.log2 a).
    destruct (Z.log2_spec a Ha) as [Hla1 Hla2].
    destruct (Z.log2_spec b ltac:(lia)) as [Hlb1 Hlb2].
    assert (Hk1 : 21 <= k1).
    { assert (Hlt : 2 ^ Z.log2 a < 2 ^ (Z.log2 b + 33)).
      { rewrite Z.pow_add_r by (pose proof (Z.log2_nonneg b); lia).
        replace (Z.succ (Z.log2 b)) with (Z.log2 b + 1) in Hlb2 by lia.
        rewrite Z.pow_add_r in Hlb2 by (pose proof (Z.log2_nonneg b); lia).
        change (2 ^ 1) with 2 in Hlb2. change (2 ^ 33) with (2 * 2 ^ 32).
        assert (a < (s + 1) * b) by (unfold a; lia).
        nia. }
      apply Z.pow_lt_mono_r_iff in Hlt; [unfold k1; lia |lia|].
      pose proof (Z.log2_nonneg b); lia. }
    unfold scaled at 1.
    destruct (0 <=? k1) eqn:E1; [|apply Z.leb_gt in E1; lia].
    set (k := if 2 ^ 53 <=? a * 2 ^ k1 / b then k1 - 1 else k1).
    assert (Hk : 20 <= k) by (unfold k; destruct (2 ^ 53 <=? a * 2 ^ k1 / b); lia).
    unfold scaled.
    destruct (0 <=? k) eqn:E2; [|apply Z.leb_gt in E2; lia].
    exists (round_half_even (a * 2 ^ k / b) ((a * 2 ^ k) mod b) b), k.
    split; [done|]. split; [lia|].
    assert (HP : 2 ^ 20 <= 2 ^ k) by (apply Z.pow_le_mono_r; lia).
    set (P := 2 ^ k) in *.
    pose proof (Z.div_mod (a * P) b ltac:(lia)) as Hdm.
    pose proof (Z.mod_pos_bound (a * P) b ltac:(lia)) as Hr.
    set (q := a * P / b) in *. set (r := (a * P) mod b) in *.
    assert (Hb2 : b < 2 * P) by (change (2 ^ 21) with (2 * 2 ^ 20) in Hb; lia).
    assert (HaP : a * P = s * P * b + t * P) by (unfold a; ring).
    assert (Hlo : s * P <= q) by nia.
    assert (Hhi : q < (s + 1) * P) by nia.
    destruct (round_half_even_cases q r b) as [-> | [-> Hup]]; [lia|].
    split; [lia|].
    assert (2 * (q + 1) * b < 2 * ((s + 1) * P) * b) by nia.
    nia.
  Qed.

  (** [int(a / b)] is the integer quotient for quotients below [2^32]. *)
Lemma int_true_div (a b : Z) :
    0 < b < 2 ^ 21 -> 0 <= a -> a / b + 1 <= 2 ^ 32 ->
    int_of_float (true_div a b) = a / b.
  Proof.
    intros Hb Ha Hq.
    unfold true_div. destruct (a =? 0) eqn:E0.
    - apply Z.eqb_eq in E0. subst a. simpl. by rewrite Z.div_0_l by lia.
    - apply Z.eqb_neq in E0.
      rewrite Z.abs_eq by lia.
      pose proof (Z.div_mod a b ltac:(lia)) as Hdm.
      pose proof (Z.mod_pos_bound a b ltac:(lia)) as Hr.
      pose proof (Z.div_pos a b ltac:(lia) ltac:(lia)) as Hs.
      destruct (true_div_pos_window b (a / b) (a mod b)) as (m & k & Heq & Hk & Hm);
        try lia.
      replace (a / b * b + a mod b) with a in Heq by lia.
      rewrite Heq. rewrite (Z.sgn_pos a) by lia. rewrite Z.mul_1_l.
      unfold int_of_float.
      destruct (0 <=? - k) eqn:E; [apply Z.leb_le in E; lia|].
      rewrite Z.opp_involutive.
      assert (0 < 2 ^ k) by (apply Z.pow_pos_nonneg; lia).
      rewrite Z.quot_div_nonneg by nia.
      symmetry. apply Z.div_unique with (r := m - a / b * 2 ^ k); lia.
  Qed.

  (** On a non-negative float, [int] and [floor] agree. *)
Lemma int_of_float_floor (m e : Z) :
    0 <= m -> int_of_float (m, e) = floor_of_float (m, e).
  Proof.
    intros Hm. unfold int_of_float, floor_of_float.
    destruct (0 <=? e) eqn:E; [done|].
    apply Z.leb_gt in E.
    apply Z.quot_div_nonneg; [done|]. apply Z.pow_pos_nonneg; lia.
  Qed.

Lemma true_div_nonneg (a b : Z) :
    0 <= a -> 0 < b -> 0 <= fst (true_div a b).
  Proof.
    intros Ha Hb. unfold true_div.
    destruct (a =? 0) eqn:E0; [done|]. apply Z.eqb_neq in E0.
    rewrite Z.abs_eq, (Z.sgn_pos a) by lia.
    unfold true_div_pos.
    destruct (scaled a b (53 + Z.log2 b - Z.log2 a)) as [n1 d1].
    set (k := if 2 ^ 53 <=? n1 / d1 then _ else _). clearbody k.
    unfold scaled.
    assert (Hq : forall n d, 0 <= n -> 0 < d -> 0 <= round_half_even (n / d) (n mod d) d).
    { intros n d Hn Hd. pose proof (Z.div_pos n d Hn Hd).
      destruct (round_half_even_cases (n / d) (n mod d) d) as [-> | [-> _]]; lia. }
    destruct (0 <=? k) eqn:E; simpl; rewrite Z.mul_1_l.
    - apply Z.leb_le in E. apply Hq; [|done].
      assert (0 < 2 ^ k) by (apply Z.pow_pos_nonneg; lia). nia.
    - apply Z.leb_gt in E. apply Hq; [done|].
      assert (0 < 2 ^ (- k)) by (apply Z.pow_pos_nonneg; lia). nia.
  Qed.

  (** The difference of two clock readings [s] seconds and [u] microseconds
      apart. *)
Lemma sub_forward (T s u : Z) :
    0 <= s -> 0 <= u < 1000000 ->
    let td := sub (T + s * 1000000 + u) T in
    microseconds td = u /\ (days td * 86400 + seconds td) = s.
  Proof.
    intros Hs Hu. unfold sub, us_per_day, us_per_second. simpl.
    replace (T + s * 1000000 + u - T) with (u + s * 1000000) by lia.
    split.
    - rewrite Z.mod_add by lia. apply Z.mod_small. lia.
    - set (d := u + s * 1000000).
      change (86400 * 1000000) with 86400000000.
      pose proof (Z.div_mod d 86400000000 ltac:(lia)) as H1.
      pose proof (Z.mod_pos_bound d 86400000000 ltac:(lia)) as H2.
      set (dd := d / 86400000000) in *. set (dm := d mod 86400000000) in *.
      pose proof (Z.div_mod dm 1000000 ltac:(lia)) as H3.
      pose proof (Z.mod_pos_bound dm 1000000 ltac:(lia)) as H4.
      assert (Hu' : dm mod 1000000 = u).
      { assert (Hd : d mod 1000000 = u).
        { unfold d. rewrite Z.mod_add by lia. apply Z.mod_small. lia. }
        rewrite <- Hd.
        replace (d mod 1000000) with ((dm + (86400 * dd) * 1000000) mod 1000000)
          by (f_equal; lia).
        by rewrite Z.mod_add by lia. }
      unfold d in H1. lia.
  Qed.

  (** The formula agrees with binary64 division as the Standard Library
      specifies it. *)
Example true_div_agrees_with_binary64 :
    SpecFloat.SFdiv 53 1024
      (SpecFloat.binary_normalize 53 1024 1999000 0 false)
      (SpecFloat.binary_normalize 53 1024 1000000 0 false)
    = SpecFloat.S754_finite false (Z.to_pos (fst (true_div 1999000 1000000)))
        (snd (true_div 1999000 1000000)).
  Proof. vm_compute. reflexivity. Qed.

Example response_time_1500 : response_time_ms (sub 1500000 0) = 1500.
  Proof. vm_compute. reflexivity. Qed.

Example response_time_1999 : response_time_ms (sub 1999000 0) = 1999.
  Proof. vm_compute. reflexivity. Qed.

  (** Beyond some five centuries the float returned by [total_seconds] can
      round up to the next whole second; the formula then uses that value. *)
Example total_seconds_rounds_up_far_out :
    let td := sub (2 ^ 34 * 1000000 + 999999) 0 in
    floor_of_float (total_seconds td) = 2 ^ 34 + 1
    /\ response_time_ms td = (2 ^ 34 + 1) * 1000 + 999.
  Proof. vm_compute. split; reflexivity. Qed.

  (** C3.  A carrier started at [T] and completed [s] seconds and [u]
      microseconds later stores, under [response_time_ms], the whole seconds
      of [total_seconds()] times 1000 plus the whole milliseconds of the
      microsecond part, both truncated; for spans below [2^32 - 1] seconds
      that is [s * 1000 + u / 1000]. *)
Theorem response_time_ms_truncates `{U : UtilModule} {Req Resp : Type}
      (request : Req) (kwargs : gmap string value) (response : Resp) (T s u : Z) :
    0 <= s -> 0 <= u < 1000000 ->
    let finished := T + s * 1000000 + u in
    let c := on_request_complete (init request kwargs T) response finished in
    items c !! "response_time_ms"
    = Some (VInt (floor_of_float (total_seconds (sub finished T)) * 1000 + u / 1000))
    /\ (s < 2 ^ 32 - 1 ->
        items c !! "response_time_ms" = Some (VInt (s * 1000 + u / 1000))).
  Proof.
    intros Hs Hu finished c.
    assert (Hlook : items c !! "response_time_ms"
                    = Some (VInt (response_time_ms (sub finished T)))).
    { unfold c, on_request_complete. simpl.
      rewrite lookup_insert_ne by done. by rewrite lookup_insert_eq. }
    rewrite Hlook. clear Hlook c.
    destruct (sub_forward T s u Hs Hu) as [Hmicro Hsec].
    fold finished in Hmicro, Hsec.
    assert (Hms : int_of_float (true_div (microseconds (sub finished T)) 1000) = u / 1000).
    { rewrite Hmicro. apply int_true_div; [lia | lia |].
      assert (u / 1000 < 1000) by (apply Z.div_lt_upper_bound; lia). lia. }
    unfold response_time_ms. rewrite Hms.
    split.
    - unfold total_seconds.
      set (a := (days (sub finished T) * 86400 + seconds (sub finished T)) * 10 ^ 6
                + microseconds (sub finished T)).
      assert (Ha : 0 <= a) by (unfold a; rewrite Hsec, Hmicro; lia).
      pose proof (true_div_nonneg a (10 ^ 6) Ha ltac:(lia)) as Hnn.
      destruct (true_div a (10 ^ 6)) as [m e]. by rewrite int_of_float_floor.
    - intros Hspan.
      unfold total_seconds. rewrite Hsec, Hmicro.
      change (10 ^ 6) with 1000000.
      assert (Hq : (s * 1000000 + u) / 1000000 = s).
      { symmetry. apply Z.div_unique with (r := u); lia. }
      rewrite int_true_div; [by rewrite Hq | lia | lia | lia].
  Qed.

  (** One second and 999 milliseconds give 1999, not 2000. *)
Lemma response_time_ms_truncates_witness :
    items (on_request_complete (U := Sample.util)
             (init (U := Sample.util) tt ∅ 0) tt (0 + 1 * 1000000 + 999000))
      !! "response_time_ms"
    = Some (VInt 1999).
  Proof.
    destruct (response_time_ms_truncates (U := Sample.util) (Req := unit) (Resp := unit)
                tt ∅ tt 0 1 999000 ltac:(lia) ltac:(lia)) as [_ H].
    apply H. lia.
  Defined.

End TimeFacts.

(** ** Relations every statement of an operation keeps *)

Module Invariants.
  Import JsonLogging Ops Props.

  Section Preserves.
    Variable R : state -> state -> Prop.
    Hypothesis R_refl : forall s, R s s.
    Hypothesis R_trans : forall s1 s2 s3, R s1 s2 -> R s2 s3 -> R s1 s3.

Lemma preserves_ret {A} (a : A) : preserves R (mret a).
    Proof. intros s. apply R_refl. Qed.

Lemma preserves_raise {A} (e : exn) : preserves R (@raise A e).
    Proof. intros s. apply R_refl. Qed.

Lemma preserves_get : preserves R get.
    Proof. intros s. apply R_refl. Qed.

Lemma preserves_bind {A B} (c : M A) (k : A -> M B) :
      preserves R c -> (forall a, preserves R (k a)) -> preserves R (c ≫= k).
    Proof.
      intros Hc Hk s. unfold mbind, M_bind, bind.
      specialize (Hc s). destruct (c s) as [[a | e] s1]; simpl in *; [|done].
      eapply R_trans; [exact Hc | apply Hk].
    Qed.

Lemma preserves_modify (f : state -> state) :
      (forall s, R s (f s)) -> preserves R (modify f).
    Proof. intros Hf s. apply Hf. Qed.

Lemma preserves_when (b : bool) (c : M unit) :
      preserves R c -> preserves R (when b c).
    Proof. intros Hc. destruct b; [done | apply preserves_ret]. Qed.

Lemma preserves_run (ops : list op) :
      Forall (fun o => preserves R (step o)) ops -> forall s, R s (run ops s).
    Proof.
      induction 1 as [| o ops Ho _ IH]; intros s; simpl; [apply R_refl|].
      eapply R_trans; [apply Ho | apply IH].
    Qed.
  End Preserves.

  (** Take a statement apart along its binds, branches and matches; [tac]
      closes what a single write has to show. *)
Ltac preserves_with refl trans tac :=
    repeat first
      [ apply (preserves_ret _ refl)
      | apply preserves_raise; exact refl
      | apply preserves_get; exact refl
      | apply (preserves_bind _ trans); [| intros ?]
      | apply (preserves_when _ refl)
      | apply preserves_modify; intros ?; solve [tac]
      | solve [auto]
      | match goal with
        | |- preserves _ (match ?x with _ => _ end) => destruct x
        end ].

Lemma same_configuration_refl s : same_configuration s s.
  Proof. by repeat split. Qed.

Lemma same_configuration_trans s1 s2 s3 :
    same_configuration s1 s2 -> same_configuration s2 s3 -> same_configuration s1 s3.
  Proof. intros (? & ? & ?) (? & ? & ?). repeat split; congruence. Qed.

  #[local] Hint Resolve same_configuration_refl same_configuration_trans : core.

Ltac keeps_configuration :=
    preserves_with same_configuration_refl same_configuration_trans
      ltac:(by repeat split).

Lemma log_keeps_configuration l msg : preserves same_configuration (log l msg).
  Proof. unfold log. keeps_configuration. Qed.

Lemma setitem_keeps_configuration l k v :
    preserves same_configuration (setitem l k v).
  Proof. unfold setitem. keeps_configuration. Qed.

  #[local] Hint Resolve log_keeps_configuration setitem_keeps_configuration : core.

Lemma validate_subclass_keeps_configuration c b :
    preserves same_configuration (validate_subclass c b).
  Proof. unfold validate_subclass. keeps_configuration. Qed.

Lemma construct_keeps_configuration c : preserves same_configuration (construct c).
  Proof.
    unfold construct, BaseJSONFormatter_init.
    keeps_configuration.
  Qed.

  #[local] Hint Resolve validate_subclass_keeps_configuration
    construct_keeps_configuration : core.

Lemma install_on_handlers_keeps_configuration c hs :
    preserves same_configuration (install_on_handlers c hs).
  Proof. induction hs as [| h hs IH]; simpl; keeps_configuration. Qed.

  #[local] Hint Resolve install_on_handlers_keeps_configuration : core.

Lemma update_formatter_for_loggers_keeps_configuration ls c :
    preserves same_configuration (update_formatter_for_loggers ls c).
  Proof. induction ls as [| l ls IH]; simpl; keeps_configuration. Qed.

  #[local] Hint Resolve update_formatter_for_loggers_keeps_configuration : core.

Lemma call_config_keeps_configuration c : preserves same_configuration (call_config c).
  Proof. unfold call_config. keeps_configuration. Qed.

  #[local] Hint Resolve call_config_keeps_configuration : core.

  (** Every operation other than the [init_*] family leaves the
      configuration as it is. *)
Lemma step_keeps_configuration (o : op) :
    is_init o = false -> preserves same_configuration (step o).
  Proof.
    destruct o; try discriminate; intros _; simpl.
    - unfold register_framework_support. keeps_configuration.
    - unfold config_root_logger. keeps_configuration.
    - unfold init_request_instrument, configurator_of. keeps_configuration.
    - unfold get_request_logger. keeps_configuration.
    - keeps_configuration.
    - keeps_configuration.
  Qed.

Lemma run_keeps_configuration (ops : list op) (s : state) :
    Forall (fun o => is_init o = false) ops -> same_configuration s (run ops s).
  Proof.
    intros Hops.
    apply (preserves_run _ same_configuration_refl same_configuration_trans).
    eapply Forall_impl; [exact Hops |]. intros o. apply step_keeps_configuration.
  Qed.

  (** *** Running a statement towards a postcondition *)

Lemma wp_ret {A} (a : A) Q s : Q (Ok a) s -> wp (mret a) Q s.
  Proof. done. Qed.

Lemma wp_raise {A} (e : exn) (Q : result A -> state -> Prop) s :
    Q (Raise e) s -> wp (raise e) Q s.
  Proof. done. Qed.

Lemma wp_get Q s : Q (Ok s) s -> wp get Q s.
  Proof. done. Qed.

Lemma wp_modify f Q s : Q (Ok tt) (f s) -> wp (modify f) Q s.
  Proof. done. Qed.

Lemma wp_bind {A B} (c : M A) (k : A -> M B) Q s :
    wp c (fun r s' => match r with
                      | Ok a => wp (k a) Q s'
                      | Raise e => Q (Raise e) s'
                      end) s ->
    wp (c ≫= k) Q s.
  Proof.
    unfold wp, mbind, M_bind, bind. by destruct (c s) as [[a | e] s1].
  Qed.

Lemma wp_when (b : bool) (c : M unit) Q s :
    (if b then wp c Q s else Q (Ok tt) s) -> wp (when b c) Q s.
  Proof. by destruct b. Qed.

Lemma wp_preserves {A} (R : state -> state -> Prop) (c : M A) Q s :
    preserves R c -> (forall r s', R s s' -> Q r s') -> wp c Q s.
  Proof. intros Hc HQ. apply HQ, Hc. Qed.

Lemma wp_elim {A} (c : M A) Q s : wp c Q s -> Q (fst (c s)) (snd (c s)).
  Proof. done. Qed.

Lemma wp_log (l : log_level) (msg : string) Q s :
    Q (Ok tt) (set_logger (_logger s ++ [(l, msg)]) s) -> wp (log l msg) Q s.
  Proof. done. Qed.

  (** Reduce reads of a state that was just written, and the small
      decisions on arguments. *)
Ltac state_simpl :=
    cbn [ENABLE_JSON_LOGGING ENABLE_JSON_LOGGING_DEBUG
         CREATE_CORRELATION_ID_IF_NOT_EXISTS CORRELATION_ID_HEADERS
         COMPONENT_ID COMPONENT_NAME COMPONENT_INSTANCE_INDEX
         _framework_support_map _current_framework _request_util
         _default_formatter _logger store base_object_common
         logging_defaultFormatter logging_root loggerDict
         configurator_instance instrumented
         set_ENABLE_JSON_LOGGING set_framework_support_map set_current_framework
         set_request_util set_default_formatter set_logger set_store
         set_logging_defaultFormatter set_logging_root set_loggerDict
         set_configurator_instance set_instrumented
         truthy_opt_str str_of_name default from_option
         app_configurator app_request_instrumentation_configurator
         request_adapter_class response_adapter_class
         negb andb orb fst snd] in *.

  (** Close a branch whose path condition contradicts what is known. *)
Ltac prune :=
    try solve
      [ discriminate
      | match goal with
        | H1 : ?a = _, H2 : ?a = _ |- _ => rewrite H1 in H2; discriminate H2
        end ].

  (** Run a statement symbolically, one statement form at a time.  [tac]
      is for the calls summarised by a relation they keep. *)
Ltac wp_step tac :=
    lazymatch goal with
    | |- wp (_ ≫= _) _ _ => apply wp_bind
    | |- wp (mret _) _ _ => apply wp_ret
    | |- wp (ret _) _ _ => apply wp_ret
    | |- wp (raise _) _ _ => apply wp_raise
    | |- wp get _ _ => apply wp_get
    | |- wp (modify _) _ _ => apply wp_modify
    | |- wp (when _ _) _ _ => apply wp_when
    | |- wp (log _ _) _ _ => apply wp_log
    | |- wp (match ?x with _ => _ end) _ _ => destruct x eqn:?; prune
    | |- match ?x with _ => _ end => destruct x eqn:?; prune
    | |- wp _ _ _ => tac
    end.

Ltac wp_run_with tac :=
    repeat (first [ progress simpl | wp_step tac ]).

  (** Follow [_current_framework] back through the states of a path. *)
Ltac chase_framework :=
    repeat match goal with
           | H : _current_framework ?s = _ |- context [_current_framework ?s] =>
             rewrite H
           end.

  (** The calls into the host summarised by [same_configuration]. *)
Ltac summarise_with lem :=
    apply (wp_preserves same_configuration); [apply lem |];
    let r := fresh "r" in let s' := fresh "s'" in
    intros r s' (? & ? & ?); simpl in *.

Ltac host_calls :=
    match goal with
    | |- wp (construct _) _ _ => summarise_with construct_keeps_configuration
    | |- wp (update_formatter_for_loggers _ _) _ _ =>
      summarise_with update_formatter_for_loggers_keeps_configuration
    | |- wp (call_config _) _ _ => summarise_with call_config_keeps_configuration
    | |- wp (validate_subclass _ _) _ _ =>
      summarise_with validate_subclass_keeps_configuration
    end.

End Invariants.

(** ** The initialisation guard *)

Module InitFacts.
  Import JsonLogging Ops Props Invariants.

  #[local] Arguments construct : simpl never.
  #[local] Arguments update_formatter_for_loggers : simpl never.
  #[local] Arguments call_config : simpl never.

  (** With a framework in place, [__init] writes the flag and raises. *)
Lemma init_guard (s : state) (e : entry) framework_name custom_formatter enable_json :
    _current_framework s = Some e ->
    __init framework_name custom_formatter enable_json s
    = (Raise already, set_ENABLE_JSON_LOGGING enable_json s).
  Proof.
    intros He. unfold __init, mbind, M_bind, bind, modify, get. simpl.
    by rewrite He.
  Qed.

  (** An unknown framework name never gets past [__init]. *)
Lemma init_unknown_framework (s : state) (name : string) custom_formatter enable_json :
    truthy_str name = true ->
    _framework_support_map s !! lower name = None ->
    wp (__init (Some name) custom_formatter enable_json)
       (fun r s' =>
          _current_framework s' = _current_framework s
          /\ exists e, r = Raise e
             /\ (_current_framework s = None -> formatter_ok custom_formatter = true ->
                 e = RuntimeError (lower name +:+ " is not a supported framework"))) s.
  Proof.
    intros Hname Hmap. unfold __init.
    wp_run_with ltac:(idtac; host_calls).
    all: split; [simpl in *; congruence |].
    all: eexists; split; [reflexivity |]; intros; simpl in *.
    all: repeat match goal with
                | H : negb ?b = _ |- _ => destruct b eqn:?; simpl in H
                end; simpl in *; congruence.
  Qed.

  (** Without a framework in place, [init_request_instrument] raises at its
      first statement and writes nothing. *)
Lemma init_request_instrument_guard (s : state) app custom_formatter
      exclude_url_patterns extractor :
    _current_framework s = None ->
    init_request_instrument app custom_formatter exclude_url_patterns extractor s
    = (Raise not_inited, s).
  Proof.
    intros He. unfold init_request_instrument, mbind, M_bind, bind, get. simpl.
    by rewrite He.
  Qed.

Lemma module_body_keeps_configuration (is_fastapi_present : bool) :
    preserves same_configuration (module_body is_fastapi_present).
  Proof.
    assert (H : forall fw prefix b,
               preserves same_configuration (register_support fw prefix b)).
    { intros fw prefix b. unfold register_support.
      match goal with
      | |- preserves _ (register_framework_support ?n ?a ?i ?rq ?rs) =>
        exact (step_keeps_configuration (Register n a i rq rs) eq_refl)
      end. }
    unfold module_body. keeps_configuration.
  Qed.

Lemma imported_not_initialised (json is_fastapi_present : bool) :
    _current_framework (imported json is_fastapi_present) = None.
  Proof.
    unfold imported.
    destruct (module_body_keeps_configuration is_fastapi_present (initial json))
      as (H & _). exact H.
  Qed.

  (** A web initialisation that returns leaves its registry entry in
      [_current_framework]. *)
Lemma web_init_sets_framework (s : state) (name : string) custom_formatter enable_json :
    truthy_str name = true ->
    wp (__init (Some name) custom_formatter enable_json)
       (fun r s' => r = Ok tt ->
                    _current_framework s = None
                    /\ _current_framework s' = _framework_support_map s !! lower name
                    /\ is_Some (_current_framework s')) s.
  Proof.
    intros Hname. unfold __init.
    wp_run_with ltac:(idtac; host_calls).
    all: intros Hr; try discriminate Hr; clear Hr.
    all: chase_framework; repeat split; try done; try (by eexists).
  Qed.

  (** A non-web initialisation leaves [_current_framework] as it found it,
      whether it returns or raises. *)
Lemma non_web_init_keeps_framework (s : state) framework_name custom_formatter
      enable_json :
    truthy_opt_str framework_name = false ->
    wp (__init framework_name custom_formatter enable_json)
       (fun _ s' => _current_framework s' = _current_framework s) s.
  Proof.
    intros Hname. unfold __init.
    wp_run_with ltac:(idtac; host_calls).
    all: chase_framework; done.
  Qed.

  (** After a web initialisation has returned, every further call of
      [__init], with any arguments, raises. *)
Lemma init_after_web_init_raises (s : state) (name : string) cf ej n' cf' ej' :
    truthy_str name = true ->
    fst (__init (Some name) cf ej s) = Ok tt ->
    fst (__init n' cf' ej' (snd (__init (Some name) cf ej s))) = Raise already.
  Proof.
    intros Hname Hok.
    destruct (wp_elim _ _ _ (web_init_sets_framework s name cf ej Hname) Hok)
      as (_ & _ & [e He]).
    by rewrite (init_guard _ e).
  Qed.

  (** C1.  [init_non_web()] called twice in a freshly imported module: the
      first call returns, leaves [_current_framework] unset, and so the
      second call returns as well instead of raising. *)
Theorem init_non_web_twice_completes :
    let s0 := imported false false in
    let s1 := snd (init_non_web None None false s0) in
    fst (init_non_web None None false s0) = Ok tt
    /\ _current_framework s1 = None
    /\ fst (init_non_web None None false s1) = Ok tt.
  Proof. vm_compute. repeat split; reflexivity. Qed.

  (** C4.  [init_flask(enable_json=True)] followed by
      [init_flask(enable_json=False)]: the second call raises, yet it has
      already overwritten [ENABLE_JSON_LOGGING]. *)
Theorem failed_second_init_overwrites_flag :
    let s0 := imported false false in
    let s1 := snd (init_flask None true s0) in
    let s2 := snd (init_flask None false s1) in
    fst (init_flask None true s0) = Ok tt
    /\ ENABLE_JSON_LOGGING s1 = true
    /\ fst (init_flask None false s1) = Raise already
    /\ ENABLE_JSON_LOGGING s2 = false.
  Proof. vm_compute. repeat split; reflexivity. Qed.

  (** What a rejected call of [__init] does leave alone. *)
Lemma rejected_init_keeps_framework_and_formatter (s : state) (e : entry) n cf ej :
    _current_framework s = Some e ->
    let s' := snd (__init n cf ej s) in
    _current_framework s' = _current_framework s
    /\ _default_formatter s' = _default_formatter s
    /\ _framework_support_map s' = _framework_support_map s
    /\ ENABLE_JSON_LOGGING s' = ej.
  Proof. intros He. simpl. by rewrite (init_guard _ e). Qed.

  (** C7.  In every state reached from the imported module by calls none of
      which is an [init_*] call, [init_request_instrument] raises its
      configuration error and leaves the state, the application included,
      untouched.  And [__init] with a framework name, of ASCII characters,
      that the registry does not know never returns: it raises, with the
      "is not a supported framework" error whenever the two checks before
      the lookup let the call through. *)
Theorem instrument_needs_init_and_unknown_framework_rejected :
    (forall (ops : list op) (json is_fastapi_present : bool) app custom_formatter
            exclude_url_patterns extractor,
        Forall (fun o => is_init o = false) ops ->
        let s := run ops (imported json is_fastapi_present) in
        init_request_instrument app custom_formatter exclude_url_patterns extractor s
        = (Raise not_inited, s))
    /\ (forall (s : state) (name : string) custom_formatter enable_json,
          truthy_str name = true ->
          ascii_only name = true ->
          _framework_support_map s !! lower name = None ->
          exists e,
            fst (__init (Some name) custom_formatter enable_json s) = Raise e
            /\ (_current_framework s = None ->
                formatter_ok custom_formatter = true ->
                e = RuntimeError (lower name +:+ " is not a supported framework"))).
  Proof.
    split.
    - intros ops json fp app cf pats ex Hops s.
      apply init_request_instrument_guard.
      destruct (run_keeps_configuration ops (imported json fp) Hops) as (H & _).
      unfold s. rewrite H. apply imported_not_initialised.
    - intros s name cf ej Hname _ Hmap.
      destruct (wp_elim _ _ _ (init_unknown_framework s name cf ej Hname Hmap))
        as (_ & e & He & Hspec).
      by exists e.
  Qed.

Lemma instrument_needs_init_and_unknown_framework_rejected_witness :
    (let s := run [GetRequestLogger; NewFormatter JSONLogFormatter] (imported false true) in
     init_request_instrument "app" None [] DefaultRequestResponseDTO s
     = (Raise not_inited, s))
    /\ fst (__init (Some "Django") None false (imported false true))
       = Raise (RuntimeError "django is not a supported framework").
  Proof.
    destruct instrument_needs_init_and_unknown_framework_rejected as [H1 H2].
    split.
    - apply (H1 [GetRequestLogger; NewFormatter JSONLogFormatter]).
      repeat constructor.
    - destruct (H2 (imported false true) "Django" None false eq_refl eq_refl)
        as (e & He & Hspec); [vm_compute; reflexivity |].
      rewrite He. f_equal.
      apply Hspec; [apply imported_not_initialised | reflexivity].
  Defined.

End InitFacts.

(** ** The framework registry *)

Module RegistryFacts.
  Import JsonLogging Ops Props Invariants.

  (** Re-registering flask in a freshly imported module, where
      [ENABLE_JSON_LOGGING_DEBUG] is off: the name is taken, the call
      returns, and nothing is logged. *)
Lemma reregistration_without_debug_logs_nothing :
    let s := imported false false in
    let out := register_support "flask" "Flask" false s in
    is_Some (_framework_support_map s !! "flask")
    /\ fst out = Ok tt
    /\ _logger (snd out) = [].
  Proof. vm_compute. repeat split; try reflexivity. by eexists. Qed.

  (** C6, amended.  [register_framework_support] raises, and writes
      nothing, when the name is [None] or empty or when a class fails its
      contract; every other call, for a name of ASCII characters, returns,
      puts the new entry under the lower-cased name whether or not one was
      there, and logs the re-registration warning exactly when the name was
      taken and [ENABLE_JSON_LOGGING_DEBUG] is on. *)
Theorem register_framework_support_outcome (s : state) (name : option string)
      (app_configurator : option pyclass)
      (instrumentation_configurator request_adapter response_adapter : pyclass) :
    let out := register_framework_support name app_configurator
                 instrumentation_configurator request_adapter response_adapter s in
    let valid := classes_valid app_configurator instrumentation_configurator
                   request_adapter response_adapter in
    (truthy_opt_str name = false -> out = (Raise no_name, s))
    /\ (truthy_opt_str name = true -> valid = false ->
        exists msg, out = (Raise (RuntimeError msg), s))
    /\ (forall n, name = Some n -> truthy_str n = true -> ascii_only n = true ->
        valid = true ->
        fst out = Ok tt
        /\ _framework_support_map (snd out)
           = <[lower n := mkEntry app_configurator instrumentation_configurator
                            request_adapter response_adapter]>
               (_framework_support_map s)
        /\ _logger (snd out)
           = (_logger s ++
              (if bool_decide (is_Some (_framework_support_map s !! lower n))
                  && ENABLE_JSON_LOGGING_DEBUG s
               then [(WARNING, "Re-register framework " +:+ lower n)] else []))%list).
  Proof.
    intros out valid. subst out valid.
    unfold register_framework_support, classes_valid, validate_subclass.
    unfold mbind, M_bind, bind, mret, M_ret, ret, raise, get, when, log, modify.
    destruct name as [n |]; simpl; [destruct (truthy_str n) eqn:Hn; simpl |].
    2,3: split; [done |]; split; intros; congruence.
    destruct (issubclass request_adapter RequestAdapter_name); simpl;
      [| split; [done |]; split; intros; [by eexists | congruence]].
    destruct (issubclass response_adapter ResponseAdapter_name); simpl;
      [| split; [done |]; split; intros; [by eexists | congruence]].
    destruct (issubclass instrumentation_configurator
                AppRequestInstrumentationConfigurator_name); simpl;
      [| split; [done |]; split; intros; [by eexists | congruence]].
    destruct app_configurator as [c |]; simpl;
      [destruct (issubclass c FrameworkConfigurator_name); simpl;
       [| split; [done |]; split; intros; [by eexists | congruence]] |].
    all: split; [done |]; split; [intros; congruence |].
    all: intros n' [= <-] _ _ _.
    all: destruct (bool_decide (is_Some (_framework_support_map s !! lower n)));
      destruct (ENABLE_JSON_LOGGING_DEBUG s); simpl.
    all: split; [done |]; split; [done |]; by rewrite ?app_nil_r.
  Qed.

Lemma register_framework_support_outcome_witness :
    let s := snd (register_support "flask" "Flask" false (initial false)) in
    let out :=
      register_framework_support (Some "Flask") None
        (support_class "FlaskAppRequestInstrumentationConfigurator"
           AppRequestInstrumentationConfigurator_name)
        (support_class "FlaskRequestAdapter" RequestAdapter_name)
        (support_class "FlaskResponseAdapter" ResponseAdapter_name) s in
    fst out = Ok tt
    /\ is_Some (_framework_support_map (snd out) !! "flask")
    /\ _logger (snd out) = [].
  Proof.
    intros s out.
    destruct (register_framework_support_outcome s (Some "Flask") None
                (support_class "FlaskAppRequestInstrumentationConfigurator"
                   AppRequestInstrumentationConfigurator_name)
                (support_class "FlaskRequestAdapter" RequestAdapter_name)
                (support_class "FlaskResponseAdapter" ResponseAdapter_name))
      as (_ & _ & H).
    destruct (H "Flask" eq_refl eq_refl eq_refl eq_refl) as (Hok & Hmap & Hlog).
    fold out in Hok, Hmap, Hlog.
    split; [exact Hok |]. split.
    - rewrite Hmap. exists (mkEntry None
                (support_class "FlaskAppRequestInstrumentationConfigurator"
                   AppRequestInstrumentationConfigurator_name)
                (support_class "FlaskRequestAdapter" RequestAdapter_name)
                (support_class "FlaskResponseAdapter" ResponseAdapter_name)).
      apply lookup_insert_eq.
    - rewrite Hlog. vm_compute. reflexivity.
  Defined.

End RegistryFacts.

(** ** The shared component-identity dict *)

Module CommonFacts.
  Import JsonLogging Ops Props Invariants.

Lemma common_grows_refl s : common_grows s s.
  Proof. by split. Qed.

Lemma common_grows_trans s1 s2 s3 :
    common_grows s1 s2 -> common_grows s2 s3 -> common_grows s1 s3.
  Proof. intros [E1 D1] [E2 D2]. split; [congruence | set_solver]. Qed.

Ltac keeps_common :=
    preserves_with common_grows_refl common_grows_trans ltac:(by split).

Lemma setitem_common_grows l k v : preserves common_grows (setitem l k v).
  Proof.
    intros s. unfold setitem, modify, common_grows, common_dict. simpl.
    split; [done |].
    destruct (decide (l = base_object_common s)) as [-> | Hne].
    - rewrite lookup_insert_eq. simpl. rewrite dom_insert. set_solver.
    - by rewrite lookup_insert_ne.
  Qed.

  #[local] Hint Resolve setitem_common_grows : core.

Lemma log_common_grows l msg : preserves common_grows (log l msg).
  Proof. unfold log. keeps_common. Qed.

  #[local] Hint Resolve log_common_grows : core.

Lemma BaseJSONFormatter_init_common_grows c :
    preserves common_grows (BaseJSONFormatter_init c).
  Proof. unfold BaseJSONFormatter_init. keeps_common. Qed.

  #[local] Hint Resolve BaseJSONFormatter_init_common_grows : core.

Lemma construct_common_grows c : preserves common_grows (construct c).
  Proof. unfold construct. keeps_common. Qed.

  #[local] Hint Resolve construct_common_grows : core.

Lemma install_on_handlers_common_grows c hs :
    preserves common_grows (install_on_handlers c hs).
  Proof. induction hs as [| h hs IH]; simpl; keeps_common. Qed.

  #[local] Hint Resolve install_on_handlers_common_grows : core.

Lemma update_formatter_for_loggers_common_grows ls c :
    preserves common_grows (update_formatter_for_loggers ls c).
  Proof. induction ls as [| l ls IH]; simpl; keeps_common. Qed.

  #[local] Hint Resolve update_formatter_for_loggers_common_grows : core.

Lemma init_common_grows n c e : preserves common_grows (__init n c e).
  Proof. unfold __init, call_config. keeps_common. Qed.

  #[local] Hint Resolve init_common_grows : core.

  (** No operation of the module takes a key out of the shared dict. *)
Lemma step_common_grows (o : op) : preserves common_grows (step o).
  Proof.
    destruct o; simpl;
      unfold init_non_web, init_flask, init_sanic, init_quart, init_connexion,
        init_fastapi; auto.
    - unfold register_framework_support, validate_subclass. keeps_common.
    - unfold config_root_logger. keeps_common.
    - unfold init_request_instrument, configurator_of, call_config. keeps_common.
    - unfold get_request_logger. keeps_common.
    - keeps_common.
    - keeps_common.
  Qed.

Lemma run_common_grows (ops : list op) (s : state) : common_grows s (run ops s).
  Proof.
    apply (preserves_run _ common_grows_refl common_grows_trans).
    apply Forall_forall. intros o _. apply step_common_grows.
  Qed.

  (** What the constructor hands out has no dict of its own. *)
Lemma construct_returns_plain_instance (c : pyclass) (s : state) :
    exists self, fst (construct (Some c) s) = Ok self
                 /\ fmt_class self = c /\ fmt_common self = None.
  Proof.
    unfold construct, BaseJSONFormatter_init.
    unfold mbind, M_bind, bind, mret, M_ret, ret, get, when, setitem, modify.
    destruct (issubclass c "BaseJSONFormatter"); simpl; [| by eexists].
    repeat match goal with
           | |- context [if ?b then _ else _] => destruct b; simpl
           end; by eexists.
  Qed.

  (** C10.  [base_object_common] is one dict behind a class attribute.
      Constructing a formatter of any class below [BaseJSONFormatter] writes
      each configured identity field into the dict that every instance
      without an attribute of its own resolves to, those built earlier
      included; and along any sequence of the module's operations the dict
      keeps every key it has. *)
Theorem base_object_common_is_shared (s : state) (c : pyclass) (earlier : formatter) :
    fmt_common earlier = None ->
    let out := BaseJSONFormatter_init c s in
    let s' := snd out in
    (exists self, fst out = Ok self
                  /\ common_of self s' = common_of earlier s'
                  /\ common_of earlier s' = common_of earlier s)
    /\ default ∅ (store s' !! common_of earlier s') = common_dict s'
    /\ (configured (COMPONENT_ID s) = true ->
        common_dict s' !! "component_id" = Some (COMPONENT_ID s))
    /\ (configured (COMPONENT_NAME s) = true ->
        common_dict s' !! "component_name" = Some (COMPONENT_NAME s))
    /\ (configured (COMPONENT_INSTANCE_INDEX s) = true ->
        common_dict s' !! "component_instance_idx" = Some (COMPONENT_INSTANCE_INDEX s))
    /\ (forall ops : list op, dom (common_dict s) ⊆ dom (common_dict (run ops s'))).
  Proof.
    intros Hplain out s'. subst out s'.
    assert (Hgrow : forall ops,
               dom (common_dict s)
               ⊆ dom (common_dict (run ops (snd (BaseJSONFormatter_init c s))))).
    { intros ops.
      pose proof (BaseJSONFormatter_init_common_grows c s) as [_ H1].
      pose proof (run_common_grows ops (snd (BaseJSONFormatter_init c s))) as [_ H2].
      set_solver. }
    revert Hgrow.
    unfold BaseJSONFormatter_init, common_dict, common_of, configured.
    unfold mbind, M_bind, bind, mret, M_ret, ret, get, when, setitem, modify.
    rewrite Hplain. simpl.
    destruct (truthy (COMPONENT_ID s) && ne_EMPTY_VALUE (COMPONENT_ID s));
      destruct (truthy (COMPONENT_NAME s) && ne_EMPTY_VALUE (COMPONENT_NAME s));
      destruct (truthy (COMPONENT_INSTANCE_INDEX s)
                && ne_EMPTY_VALUE (COMPONENT_INSTANCE_INDEX s));
      simpl; intros Hgrow.
    all: split; [by eexists |]; split; [done |].
    all: repeat split; try discriminate; try exact Hgrow; intros _.
    all: repeat (rewrite lookup_insert_eq; simpl).
    all: repeat first [ rewrite lookup_insert_eq | rewrite lookup_insert_ne by done ].
    all: done.
  Qed.

Lemma base_object_common_is_shared_witness :
    let s := set_component (VStr "billing") (VStr "-") (VInt 0) (imported false false) in
    let earlier := mkFormatter JSONLogFormatter None in
    let s' := snd (BaseJSONFormatter_init JSONRequestLogFormatter s) in
    default ∅ (store s' !! common_of earlier s') !! "component_id" = Some (VStr "billing").
  Proof.
    intros s earlier s'.
    destruct (base_object_common_is_shared s JSONRequestLogFormatter earlier eq_refl)
      as (_ & Hdict & Hid & _).
    fold s' in Hdict, Hid. rewrite Hdict. apply Hid. reflexivity.
  Defined.

End CommonFacts.

(** ** The formatter classes *)

Module FormatFacts.
  Import JsonLogging Formatters Props.

  Section WithAdapters.
    Context {U : UtilModule} {Req Resp : Type}.
    Context `{RA : RequestAdapter Req} `{PA : ResponseAdapter Resp}.
    Variable CORRELATION_ID_GENERATOR : nat -> string.
    Variable generate_outside_request : bool.

Abbreviation record := (LogRecord.t Req Resp).
Abbreviation resolve :=
      (Resolver.resolve (Req := Req) CORRELATION_ID_GENERATOR generate_outside_request).

Lemma update_lookup_other (obj other : gmap string value) k v :
      other !! k = Some v -> update obj other !! k = Some v.
    Proof. intros H. unfold update. by apply lookup_union_Some_l. Qed.

Lemma update_lookup_obj (obj other : gmap string value) k :
      other !! k = None -> update obj other !! k = obj !! k.
    Proof. intros H. unfold update. by rewrite lookup_union_r. Qed.

Lemma dom_update (obj other : gmap string value) :
      dom (update obj other) = dom obj ∪ dom other.
    Proof. unfold update. rewrite dom_union_L. set_solver. Qed.

Lemma dom_request_fields (request : Req) (response : Resp) length cid :
      dom (request_fields request response length cid) = list_to_set request_keys.
    Proof. unfold request_fields. rewrite dom_list_to_map_L. reflexivity. Qed.

    (** C2.  For a record carrying a completed carrier, the request
        formatter returns the base object updated first with the explicit
        block of fifteen fields and then with the carrier: every key of the
        carrier shows the carrier's value, colliding explicit keys
        included, and an explicit key the carrier lacks shows the explicit
        value. *)
Theorem request_formatter_carrier_wins (s : state) (self : formatter) (r : record)
        (request_util module_request_util : RequestUtil)
        (data : Carrier.dto Req Resp) (response : Resp)
        (utcnow : DateTime.datetime) (generator : nat) :
      _request_util s = Some module_request_util ->
      LogRecord.request_response_data r = Some data ->
      Carrier._response data = Some response ->
      let res := resolve s (Some (Carrier._request data)) false generator in
      let request := default (Carrier._request data) (Resolver.request_after res) in
      let explicit :=
        request_fields request response (get_content_length (Carrier._request data))
          (Resolver.id res) in
      exists f,
        Request_format_log_object CORRELATION_ID_GENERATOR generate_outside_request
          s self r (Some request_util) utcnow generator = Ok f
        /\ log_object f
           = update (update (Base_format_log_object s self r utcnow) explicit)
               (Carrier.items data)
        /\ dom explicit = list_to_set request_keys
        /\ (forall k v, Carrier.items data !! k = Some v -> log_object f !! k = Some v)
        /\ (forall k v, Carrier.items data !! k = None -> explicit !! k = Some v ->
                        log_object f !! k = Some v).
    Proof.
      intros Hutil Hdata Hresp res request explicit.
      unfold Request_format_log_object. rewrite Hutil, Hdata, Hresp.
      eexists. split; [reflexivity |]. simpl.
      split; [reflexivity |]. split; [apply dom_request_fields |]. split.
      - intros k v Hk. by apply update_lookup_other.
      - intros k v Hk Hex. rewrite update_lookup_obj by done.
        by apply update_lookup_other.
    Qed.

    (** The attributes the host gives every record are all on the skip
        list. *)
Lemma standard_attributes_skipped (r : record) :
      LogRecord.extra r = ∅ ->
      LogRecord.request_response_data r = None ->
      forall k, is_Some (LogRecord.__dict__ r !! k) -> k ∈ RECORD_ATTR_SKIP_LIST.
    Proof.
      intros Hextra Hdata k Hk. apply elem_of_dom in Hk.
      unfold LogRecord.__dict__ in Hk. rewrite Hextra, Hdata in Hk.
      rewrite !dom_union_L, dom_list_to_map_L, !dom_empty_L in Hk.
      simpl in Hk. unfold RECORD_ATTR_SKIP_LIST.
      set_solver.
    Qed.

Lemma extra_fields_of_plain_record (r : record) :
      LogRecord.extra r = ∅ ->
      LogRecord.request_response_data r = None ->
      _get_extra_fields r
      = if truthy (LogRecord.args r) then {[ "msg" := LogRecord.msg r ]} else ∅.
    Proof.
      intros Hextra Hdata. unfold _get_extra_fields.
      assert (Hprops : LogRecord.__dict__ r !! "props" = None).
      { unfold LogRecord.__dict__. rewrite Hextra, Hdata.
        rewrite !lookup_union, !lookup_empty. reflexivity. }
      rewrite Hprops.
      assert (Hfilter : filter (fun kv : string * value => kv.1 ∉ RECORD_ATTR_SKIP_LIST)
                          (LogRecord.__dict__ r) = ∅).
      { apply map_empty. intros k. apply map_lookup_filter_None.
        destruct (LogRecord.__dict__ r !! k) as [v |] eqn:Hk; [right | by left].
        intros v' _ Hnot. apply Hnot. simpl.
        apply (standard_attributes_skipped r); [done | done |]. by rewrite Hk. }
      rewrite Hfilter, fmap_empty. unfold update. by rewrite (left_id_L ∅ (∪)).
    Qed.

    (** C5.  For a record with no exception, no exception text, nothing
        attached beyond the host's own attributes and no carrier, the keys
        of the object [JSONLogFormatter] assembles are [written_at] and
        [written_ts], the keys of the shared component-identity dict, and
        the seven Log-layer keys, and no others. *)
Theorem log_formatter_keys (s : state) (self : formatter) (r : record)
        (utcnow : DateTime.datetime) :
      LogRecord.exc_info r = None ->
      truthy_opt_str (LogRecord.exc_text r) = false ->
      LogRecord.extra r = ∅ ->
      LogRecord.request_response_data r = None ->
      dom (Log_format_log_object s self r utcnow)
      = {[ "written_at"; "written_ts" ]}
        ∪ dom (default ∅ (store s !! common_of self s))
        ∪ list_to_set log_keys.
    Proof.
      intros Hexc Htext Hextra Hdata.
      unfold Log_format_log_object. rewrite Hexc, Htext.
      rewrite bool_decide_false by (by intros [? ?]). cbn [orb].
      rewrite dom_update, dom_list_to_map_L.
      unfold Base_format_log_object.
      rewrite !dom_update, extra_fields_of_plain_record by done.
      rewrite dom_insert_L, dom_singleton_L.
      destruct (truthy (LogRecord.args r)).
      - rewrite dom_singleton_L. simpl. set_solver.
      - rewrite dom_empty_L. simpl. set_solver.
    Qed.

    (** C8.  Given a request util, [JSONLogWebFormatter] returns an object
        that has [correlation_id]: the Log-layer object itself when that
        already has the key (nothing is resolved), and otherwise the
        Log-layer object with the id resolved without a request under that
        key. *)
Theorem web_formatter_correlation_id (s : state) (self : formatter) (r : record)
        (request_util : RequestUtil) (utcnow : DateTime.datetime) (generator : nat) :
      let below := Log_format_log_object s self r utcnow in
      exists f,
        Web_format_log_object CORRELATION_ID_GENERATOR generate_outside_request
          s self r (Some request_util) utcnow generator = Ok f
        /\ is_Some (log_object f !! "correlation_id")
        /\ (forall v, below !! "correlation_id" = Some v ->
                      log_object f = below /\ generator_now f = generator)
        /\ (below !! "correlation_id" = None ->
            log_object f
            = <["correlation_id" := VStr (Resolver.id (resolve s None true generator))]>
                below).
    Proof.
      intros below. unfold Web_format_log_object. fold below.
      destruct (below !! "correlation_id") as [v |] eqn:Hbelow.
      - rewrite bool_decide_true by (by eexists).
        eexists. split; [reflexivity |]. simpl.
        split; [by rewrite Hbelow; eexists |]. split; [done | discriminate].
      - rewrite bool_decide_false by (by intros [? ?]).
        eexists. split; [reflexivity |]. simpl.
        unfold update. rewrite <- insert_union_singleton_l.
        split; [rewrite lookup_insert_eq; by eexists |].
        split; [discriminate | done].
    Qed.

    (** Without a request util the web formatter can only return what the
        Log layer already made complete. *)
Lemma web_formatter_without_request_util (s : state) (self : formatter) (r : record)
        (utcnow : DateTime.datetime) (generator : nat) :
      Log_format_log_object s self r utcnow !! "correlation_id" = None ->
      exists e,
        Web_format_log_object CORRELATION_ID_GENERATOR generate_outside_request
          s self r None utcnow generator = Raise e.
    Proof.
      intros Hnone. unfold Web_format_log_object.
      rewrite Hnone, bool_decide_false by (by intros [? ?]). by eexists.
    Qed.

  End WithAdapters.

Lemma request_formatter_carrier_wins_witness :
    exists f,
      Request_format_log_object (U := Sample.util) Sample.generator false
        Sample.flask_state (mkFormatter JSONRequestLogFormatter None)
        Sample.request_record
        (_request_util Sample.flask_state) 2000000 0 = Ok f
      /\ log_object f !! "method" = Some (VStr "custom")
      /\ log_object f !! "response_time_ms" = Some (VInt 1500)
      /\ log_object f !! "correlation_id" = Some (VStr "abc-123").
  Proof.
    destruct (request_formatter_carrier_wins (U := Sample.util) Sample.generator false
                Sample.flask_state (mkFormatter JSONRequestLogFormatter None)
                Sample.request_record
                (mkRequestUtil (support_class "FlaskRequestAdapter" RequestAdapter_name)
                   (support_class "FlaskResponseAdapter" ResponseAdapter_name))
                (mkRequestUtil (support_class "FlaskRequestAdapter" RequestAdapter_name)
                   (support_class "FlaskResponseAdapter" ResponseAdapter_name))
                Sample.carrier tt 2000000 0 eq_refl eq_refl eq_refl)
      as (f & Hf & _ & _ & Hcarrier & Hexplicit).
    exists f. split; [exact Hf |].
    split; [apply Hcarrier; vm_compute; reflexivity |].
    split; [apply Hcarrier; vm_compute; reflexivity |].
    apply Hexplicit; vm_compute; reflexivity.
  Defined.

Lemma log_formatter_keys_witness :
    dom (Log_format_log_object (U := Sample.util) Sample.flask_state
           (mkFormatter JSONLogFormatter None) Sample.record 0)
    = {[ "written_at"; "written_ts" ]}
      ∪ dom (default ∅ (store Sample.flask_state
                          !! common_of (mkFormatter JSONLogFormatter None)
                               Sample.flask_state))
      ∪ list_to_set log_keys.
  Proof.
    apply (log_formatter_keys (U := Sample.util) Sample.flask_state
             (mkFormatter JSONLogFormatter None) Sample.record 0);
      reflexivity.
  Defined.

End FormatFacts.

(** ** The correlation-id resolver *)

Module ResolverFacts.
  Import JsonLogging Props Resolver.

  Section WithAdapter.
    Context {Req : Type} `{CA : CachingAdapter Req}.
    Variable CORRELATION_ID_GENERATOR : nat -> string.
    Variable generate_outside_request : bool.

Abbreviation resolve :=
      (Resolver.resolve (Req := Req) CORRELATION_ID_GENERATOR generate_outside_request).

    (** A request that already carries an id is answered from it alone. *)
Lemma resolve_cached (s : state) (r : Req) (v : string) (w : bool) (g : nat) :
      get_correlation_id_in_request_context r = Some v ->
      resolve s (Some r) w g = mkResolution v (Some r) g [ReadCached].
    Proof. intros Hv. unfold Resolver.resolve. by rewrite Hv. Qed.

Lemma resolve_header (s : state) (r : Req) (v : string) cs (w : bool) (g : nat) :
      get_correlation_id_in_request_context r = None ->
      scan_headers r (CORRELATION_ID_HEADERS s) = (Some v, cs) ->
      resolve s (Some r) w g
      = mkResolution v (Some (set_correlation_id r v)) g
          (ReadCached :: cs ++ [WriteCached v]).
    Proof. intros Hctx Hscan. unfold Resolver.resolve. by rewrite Hctx, Hscan. Qed.

Lemma resolve_generated (s : state) (r : Req) cs (w : bool) (g : nat) :
      get_correlation_id_in_request_context r = None ->
      scan_headers r (CORRELATION_ID_HEADERS s) = (None, cs) ->
      CREATE_CORRELATION_ID_IF_NOT_EXISTS s = true ->
      resolve s (Some r) w g
      = mkResolution (CORRELATION_ID_GENERATOR g)
          (Some (set_correlation_id r (CORRELATION_ID_GENERATOR g))) (S g)
          (ReadCached :: cs ++ [Generate; WriteCached (CORRELATION_ID_GENERATOR g)]).
    Proof.
      intros Hctx Hscan Hcreate. unfold Resolver.resolve.
      by rewrite Hctx, Hscan, Hcreate.
    Qed.

Lemma resolve_sentinel (s : state) (r : Req) cs (w : bool) (g : nat) :
      get_correlation_id_in_request_context r = None ->
      scan_headers r (CORRELATION_ID_HEADERS s) = (None, cs) ->
      CREATE_CORRELATION_ID_IF_NOT_EXISTS s = false ->
      resolve s (Some r) w g = mkResolution EMPTY_VALUE (Some r) g (ReadCached :: cs).
    Proof.
      intros Hctx Hscan Hcreate. unfold Resolver.resolve.
      by rewrite Hctx, Hscan, Hcreate.
    Qed.

    (** C9, amended.  With a caching adapter, resolving twice on the same
        request gives the same string both times; and when the first
        resolution found or made an id, the second is the single read of
        the cached value: no header is read, nothing is generated or
        written. *)
Theorem resolve_twice (s : state) (r : Req) (w1 w2 : bool) (g : nat) :
      let first := resolve s (Some r) w1 g in
      let second := resolve s (request_after first) w2 (generator_after first) in
      id second = id first
      /\ (obtains_id s r ->
          calls second = [ReadCached]
          /\ request_after second = request_after first
          /\ generator_after second = generator_after first).
    Proof.
      intros first second. subst second first. unfold obtains_id.
      destruct (get_correlation_id_in_request_context r) as [v |] eqn:Hctx.
      - rewrite (resolve_cached s r v w1 g Hctx). cbn [request_after generator_after id calls].
        rewrite (resolve_cached s r v w2 g Hctx). by repeat split.
      - destruct (scan_headers r (CORRELATION_ID_HEADERS s)) as [[v |] cs] eqn:Hscan.
        + rewrite (resolve_header s r v cs w1 g Hctx Hscan). cbn [request_after generator_after id calls].
          rewrite (resolve_cached s _ v w2 g (get_set_correlation_id r v)).
          by repeat split.
        + destruct (CREATE_CORRELATION_ID_IF_NOT_EXISTS s) eqn:Hcreate.
          * rewrite (resolve_generated s r cs w1 g Hctx Hscan Hcreate). cbn [request_after generator_after id calls].
            rewrite (resolve_cached s _ _ w2 (S g)
                       (get_set_correlation_id r (CORRELATION_ID_GENERATOR g))).
            by repeat split.
          * rewrite (resolve_sentinel s r cs w1 g Hctx Hscan Hcreate). cbn [request_after generator_after id calls].
            rewrite (resolve_sentinel s r cs w2 g Hctx Hscan Hcreate). cbn [request_after generator_after id calls].
            split; [done |].
            intros [[? [=]] | [[? [=]] | [=]]].
    Qed.

  End WithAdapter.

  (** With generation switched off and a request that has neither an id nor
      a configured header, both resolutions give the sentinel, nothing is
      cached, and the second reads the headers again. *)
Lemma second_resolution_rescans_without_id :
    let s := set_create_correlation_id false (imported false false) in
    let r := Sample.mkRequest [("accept", "*/*")] None in
    let first := Resolver.resolve Sample.generator false s (Some r) false 0 in
    let second :=
      Resolver.resolve Sample.generator false s (request_after first) false
        (generator_after first) in
    id first = "-" /\ id second = "-"
    /\ calls second
       = [ReadCached; ReadHeader "X-Correlation-ID"; ReadHeader "X-Request-ID"].
  Proof. vm_compute. repeat split; reflexivity. Qed.

Lemma resolve_twice_witness :
    let s := imported false false in
    let r := Sample.mkRequest [("X-Request-ID", "abc-123")] None in
    let first := Resolver.resolve Sample.generator false s (Some r) false 0 in
    let second :=
      Resolver.resolve Sample.generator false s (request_after first) false
        (generator_after first) in
    id first = "abc-123" /\ id second = "abc-123" /\ calls second = [ReadCached].
  Proof.
    intros s r first second.
    destruct (resolve_twice (CA := Sample.caching) Sample.generator false s r false false 0)
      as [Hid Hcached].
    fold first in Hid, Hcached. fold second in Hid, Hcached.
    assert (Hfirst : id first = "abc-123") by (vm_compute; reflexivity).
    split; [exact Hfirst |]. split; [by rewrite Hid |].
    apply Hcached. right. right. reflexivity.
  Defined.

End ResolverFacts.

(** ** More on the formatters *)

Module FormatExtras.
  Import JsonLogging Formatters Props FormatFacts.



  Section WithAdapters.
    Context {U : UtilModule} {Req Resp : Type}.
    Context `{RA : RequestAdapter Req} `{PA : ResponseAdapter Resp}.
    Variable CORRELATION_ID_GENERATOR : nat -> string.
    Variable generate_outside_request : bool.

Abbreviation record := (LogRecord.t Req Resp).

    (** The attributes the host sets are all named on the skip list. *)
Lemma dict_lookup_attached (r : record) (k : string) :
      k ∉ RECORD_ATTR_SKIP_LIST -> k <> "request_response_data" ->
      LogRecord.__dict__ r !! k = LogRecord.extra r !! k.
    Proof.
      intros Hskip Hk. unfold LogRecord.__dict__.
      rewrite lookup_union_r; [done |].
      apply lookup_union_None. split.
      - apply not_elem_of_dom. rewrite dom_list_to_map_L. simpl.
        unfold RECORD_ATTR_SKIP_LIST in Hskip. set_solver.
      - destruct (LogRecord.request_response_data r);
          [by apply lookup_singleton_ne | apply lookup_empty].
    Qed.

Lemma dict_lookup_props (r : record) :
      LogRecord.__dict__ r !! "props" = LogRecord.extra r !! "props".
    Proof.
      unfold LogRecord.__dict__.
      rewrite lookup_union_r; [done |].
      apply lookup_union_None. split.
      - apply not_elem_of_dom. rewrite dom_list_to_map_L, elem_of_list_to_set.
        cbn [fmap list_fmap fst]. compute_done.
      - destruct (LogRecord.request_response_data r);
          [by apply lookup_singleton_ne | apply lookup_empty].
    Qed.

    (** The fields before [props] is merged in. *)
Lemma fields_before_props_lookup (r : record) (k : string) :
      update (if truthy (LogRecord.args r)
              then {[ "msg" := LogRecord.msg r ]} else ∅)
        (easy_or_repr <$>
           filter (fun kv : string * value => kv.1 ∉ RECORD_ATTR_SKIP_LIST)
             (LogRecord.__dict__ r)) !! k
      = if bool_decide (k ∈ RECORD_ATTR_SKIP_LIST)
        then (if bool_decide (k = "msg") && truthy (LogRecord.args r)
              then Some (LogRecord.msg r) else None)
        else easy_or_repr <$> LogRecord.__dict__ r !! k.
    Proof.
      unfold update. rewrite lookup_union, lookup_fmap.
      destruct (decide (k ∈ RECORD_ATTR_SKIP_LIST)) as [Hin | Hnot].
      - rewrite bool_decide_true by done.
        assert (Hf : filter (fun kv : string * value => kv.1 ∉ RECORD_ATTR_SKIP_LIST)
                       (LogRecord.__dict__ r) !! k = None).
        { apply map_lookup_filter_None. right. intros v _ Hn. by apply Hn. }
        rewrite Hf. cbn [fmap option_fmap option_map]. rewrite (left_id_L None union).
        destruct (truthy (LogRecord.args r)).
        + destruct (decide (k = "msg")) as [-> | Hne].
          * by rewrite bool_decide_true, lookup_singleton_eq.
          * by rewrite bool_decide_false, lookup_singleton_ne.
        + by rewrite lookup_empty, andb_false_r.
      - rewrite bool_decide_false by done.
        assert (Hinit : (if truthy (LogRecord.args r)
                         then ({[ "msg" := LogRecord.msg r ]} : gmap string value)
                         else ∅) !! k = None).
        { destruct (truthy (LogRecord.args r)); [| apply lookup_empty].
          apply lookup_singleton_ne. intros <-. apply Hnot.
          unfold RECORD_ATTR_SKIP_LIST. set_solver. }
        rewrite Hinit, (right_id_L None union).
        destruct (LogRecord.__dict__ r !! k) as [v |] eqn:Hk.
        + assert (Hf : filter (fun kv : string * value => kv.1 ∉ RECORD_ATTR_SKIP_LIST)
                         (LogRecord.__dict__ r) !! k = Some v)
            by (by apply map_lookup_filter_Some).
          by rewrite Hf.
        + assert (Hf : filter (fun kv : string * value => kv.1 ∉ RECORD_ATTR_SKIP_LIST)
                         (LogRecord.__dict__ r) !! k = None)
            by (apply map_lookup_filter_None; by left).
          by rewrite Hf.
    Qed.

    (** X2.  For a record whose [props] is not a dict, [_get_extra_fields]
        drops every attribute named on the skip list, hands back the raw
        [msg] exactly when the record has arguments, and passes every other
        attached attribute on: unchanged when its type is one of the easy
        types, as its [repr] string otherwise. *)
Theorem extra_fields_lookup (r : record) (k : string) :
      (forall d, LogRecord.extra r !! "props" <> Some (VDict d)) ->
      (k ∈ RECORD_ATTR_SKIP_LIST ->
       _get_extra_fields r !! k
       = if bool_decide (k = "msg") && truthy (LogRecord.args r)
         then Some (LogRecord.msg r) else None)
      /\ (k ∉ RECORD_ATTR_SKIP_LIST -> k <> "request_response_data" ->
          _get_extra_fields r !! k = easy_or_repr <$> LogRecord.extra r !! k).
    Proof.
      intros Hprops.
      assert (Hfields :
        _get_extra_fields r
        = update (if truthy (LogRecord.args r)
                  then {[ "msg" := LogRecord.msg r ]} else ∅)
            (easy_or_repr <$>
               filter (fun kv : string * value => kv.1 ∉ RECORD_ATTR_SKIP_LIST)
                 (LogRecord.__dict__ r))).
      { unfold _get_extra_fields. rewrite dict_lookup_props.
        destruct (LogRecord.extra r !! "props") as [[] |] eqn:Hp; try done.
        by destruct (Hprops d). }
      rewrite Hfields, fields_before_props_lookup.
      split.
      - intros Hin. by rewrite bool_decide_true.
      - intros Hnot Hk. rewrite bool_decide_false by done.
        by rewrite dict_lookup_attached.
    Qed.

Lemma update_items_lookup (obj : gmap string value) (d : list (string * value)) k v :
      NoDup d.*1 -> (k, v) ∈ d -> update_items obj d !! k = Some v.
    Proof.
      unfold update_items. revert obj.
      induction d as [| [k' v'] d IH]; intros obj Hnd Hin; [by apply elem_of_nil in Hin |].
      apply NoDup_cons in Hnd as [Hfresh Hnd]. simpl.
      apply elem_of_cons in Hin as [[= <- <-] | Hin].
      - clear IH.
        assert (Hkeep : forall (l : list (string * value)) (m : gmap string value),
                   k ∉ l.*1 -> m !! k = Some v ->
                   foldl (fun m kv => <[kv.1 := kv.2]> m) m l !! k = Some v).
        { induction l as [| [a b] l IHl]; intros m Hl Hm; [done |].
          simpl. apply IHl; [set_solver |].
          rewrite lookup_insert_ne; [done |]. set_solver. }
        apply Hkeep; [done | apply lookup_insert_eq].
      - by apply IH.
    Qed.

    (** X3.  When [props] is a dict, each of its entries ends up in the
        fields under its own key, whatever attribute of that name the
        record has and whether or not the name is on the skip list. *)
Theorem props_entries_win (r : record) (d : list (string * value)) k v :
      LogRecord.extra r !! "props" = Some (VDict d) ->
      NoDup d.*1 -> (k, v) ∈ d ->
      _get_extra_fields r !! k = Some v.
    Proof.
      intros Hp Hnd Hin. unfold _get_extra_fields.
      rewrite dict_lookup_props, Hp. by apply update_items_lookup.
    Qed.

    (** X4.  The seven Log-layer fields of the object [JSONLogFormatter]
        assembles always come from the record itself: no attached attribute,
        [props] entry or component field of the same name survives. *)
Theorem log_layer_fields_fixed (s : state) (self : formatter) (r : record)
        (utcnow : DateTime.datetime) :
      let o := Log_format_log_object s self r utcnow in
      o !! "msg" = Some (VStr (_sanitize_log_msg r))
      /\ o !! "type" = Some (VStr "log")
      /\ o !! "logger" = Some (LogRecord.name r)
      /\ o !! "thread" = Some (LogRecord.threadName r)
      /\ o !! "level" = Some (LogRecord.levelname r)
      /\ o !! "module" = Some (LogRecord.module r)
      /\ o !! "line_no" = Some (LogRecord.lineno r).
    Proof.
      intros o. subst o. unfold Log_format_log_object.
      set (below := Base_format_log_object s self r utcnow).
      assert (Hlayer : forall k v,
        (list_to_map
           [("msg", VStr (_sanitize_log_msg r)); ("type", VStr "log");
            ("logger", LogRecord.name r); ("thread", LogRecord.threadName r);
            ("level", LogRecord.levelname r); ("module", LogRecord.module r);
            ("line_no", LogRecord.lineno r)] : gmap string value) !! k = Some v ->
        k <> "exc_info" -> k <> "filename" ->
        (if bool_decide (is_Some (LogRecord.exc_info r))
            || truthy_opt_str (LogRecord.exc_text r)
         then update (update below
                        (list_to_map
                           [("msg", VStr (_sanitize_log_msg r)); ("type", VStr "log");
                            ("logger", LogRecord.name r);
                            ("thread", LogRecord.threadName r);
                            ("level", LogRecord.levelname r);
                            ("module", LogRecord.module r);
                            ("line_no", LogRecord.lineno r)]))
                (get_exc_fields r)
         else update below
                (list_to_map
                   [("msg", VStr (_sanitize_log_msg r)); ("type", VStr "log");
                    ("logger", LogRecord.name r); ("thread", LogRecord.threadName r);
                    ("level", LogRecord.levelname r); ("module", LogRecord.module r);
                    ("line_no", LogRecord.lineno r)])) !! k = Some v).
      { intros k v Hk Hne1 Hne2.
        destruct (_ || _); [| by apply update_lookup_other].
        rewrite update_lookup_obj; [by apply update_lookup_other |].
        unfold get_exc_fields.
        rewrite lookup_insert_ne by done. by rewrite lookup_singleton_ne. }
      repeat split; apply Hlayer; done.
    Qed.

    (** X5.  A record with exception information always gets the two
        exception fields: [exc_info] is the formatted traceback when
        [record.exc_info] is set and the cached [exc_text] otherwise, and
        [filename] is the record's file name; nothing attached to the record
        overrides them. *)
Theorem exception_fields (s : state) (self : formatter) (r : record)
        (utcnow : DateTime.datetime) :
      let o := Log_format_log_object s self r utcnow in
      (forall tb, LogRecord.exc_info r = Some tb ->
                  o !! "exc_info" = Some (VStr tb)
                  /\ o !! "filename" = Some (LogRecord.filename r))
      /\ (forall text, LogRecord.exc_info r = None ->
                       LogRecord.exc_text r = Some text -> truthy_str text = true ->
                       o !! "exc_info" = Some (VStr text)
                       /\ o !! "filename" = Some (LogRecord.filename r)).
    Proof.
      intros o. subst o. unfold Log_format_log_object, get_exc_fields. split.
      - intros tb Htb. rewrite Htb.
        rewrite bool_decide_true by (by eexists). cbn [orb].
        split; apply update_lookup_other.
        + rewrite lookup_insert_ne by done. apply lookup_singleton_eq.
        + apply lookup_insert_eq.
      - intros text Hnone Htext Htruthy. rewrite Hnone, Htext.
        rewrite bool_decide_false by (by intros [? ?]).
        cbn [orb truthy_opt_str LogRecord.opt_value]. rewrite Htruthy.
        split; apply update_lookup_other.
        + rewrite lookup_insert_ne by done. apply lookup_singleton_eq.
        + apply lookup_insert_eq.
    Qed.

    (** X6.  The request formatter returns no object for a record that has
        no carrier, for a carrier on which [on_request_complete] was never
        called, or while the module's own [_request_util] is unset, even
        when a request util is passed in: it raises [AttributeError]. *)
Theorem request_formatter_needs_completed_carrier (s : state) (self : formatter)
        (r : record) (request_util : option RequestUtil)
        (utcnow : DateTime.datetime) (generator : nat) :
      request_util = None
      \/ _request_util s = None
      \/ LogRecord.request_response_data r = None
      \/ (exists data, LogRecord.request_response_data r = Some data
                       /\ Carrier._response data = None) ->
      exists msg,
        Request_format_log_object CORRELATION_ID_GENERATOR generate_outside_request
          s self r request_util utcnow generator = Raise (AttributeError msg).
    Proof.
      unfold Request_format_log_object.
      intros [-> | [Hu | [Hd | (data & Hd & Hr)]]].
      - by eexists.
      - destruct request_util; rewrite ?Hu; by eexists.
      - destruct request_util; [| by eexists].
        destruct (_request_util s); [| by eexists]. rewrite Hd. by eexists.
      - destruct request_util; [| by eexists].
        destruct (_request_util s); [| by eexists]. rewrite Hd, Hr. by eexists.
    Qed.


  End WithAdapters.

End FormatExtras.

Module FormatExtrasWitnesses.
  Import JsonLogging Formatters Props FormatFacts FormatExtras.

Lemma extra_fields_lookup_witness :
    _get_extra_fields Sample.extra_record !! "levelname" = None
    /\ _get_extra_fields Sample.extra_record !! "msg" = Some (VStr "hello %s")
    /\ _get_extra_fields Sample.extra_record !! "session" = Some (VStr "<Session 7>")
    /\ _get_extra_fields Sample.extra_record !! "user" = Some (VStr "ann").
  Proof.
    assert (Hprops : forall d,
               LogRecord.extra Sample.extra_record !! "props" <> Some (VDict d)).
    { intros d H. vm_compute in H. discriminate H. }
    split; [| split; [| split]].
    - destruct (extra_fields_lookup Sample.extra_record "levelname" Hprops) as [H _].
      rewrite H by (unfold RECORD_ATTR_SKIP_LIST; compute_done). reflexivity.
    - destruct (extra_fields_lookup Sample.extra_record "msg" Hprops) as [H _].
      rewrite H by (unfold RECORD_ATTR_SKIP_LIST; compute_done). reflexivity.
    - destruct (extra_fields_lookup Sample.extra_record "session" Hprops) as [_ H].
      rewrite H by (unfold RECORD_ATTR_SKIP_LIST; compute_done).
      vm_compute. reflexivity.
    - destruct (extra_fields_lookup Sample.extra_record "user" Hprops) as [_ H].
      rewrite H by (unfold RECORD_ATTR_SKIP_LIST; compute_done).
      vm_compute. reflexivity.
  Defined.

Lemma props_entries_win_witness :
    _get_extra_fields Sample.props_record !! "user" = Some (VStr "bob")
    /\ _get_extra_fields Sample.props_record !! "name" = Some (VStr "x").
  Proof.
    assert (Hp : LogRecord.extra Sample.props_record !! "props"
                 = Some (VDict [("user", VStr "bob"); ("name", VStr "x")]))
      by (vm_compute; reflexivity).
    assert (Hnd : NoDup [("user", VStr "bob"); ("name", VStr "x")].*1).
    { cbn [fmap list_fmap fst]. apply NoDup_cons. split; [compute_done |].
      apply NoDup_singleton. }
    split.
    - apply (props_entries_win Sample.props_record _ "user" (VStr "bob") Hp Hnd).
      apply elem_of_cons. by left.
    - apply (props_entries_win Sample.props_record _ "name" (VStr "x") Hp Hnd).
      apply elem_of_cons. right. apply elem_of_cons. by left.
  Defined.

Lemma exception_fields_witness :
    Log_format_log_object (U := Sample.util) Sample.flask_state
      (mkFormatter JSONLogFormatter None) Sample.failed_record 0 !! "exc_info"
    = Some (VStr "Traceback (most recent call last): ZeroDivisionError").
  Proof.
    destruct (exception_fields (U := Sample.util) Sample.flask_state
                (mkFormatter JSONLogFormatter None) Sample.failed_record 0) as [H _].
    destruct (H _ eq_refl) as [Hexc _]. exact Hexc.
  Defined.

Lemma request_formatter_needs_completed_carrier_witness :
    exists msg,
      Request_format_log_object (U := Sample.util) Sample.generator false
        Sample.flask_state (mkFormatter JSONRequestLogFormatter None)
        Sample.record (_request_util Sample.flask_state) 0 0
      = Raise (AttributeError msg).
  Proof.
    apply (request_formatter_needs_completed_carrier (U := Sample.util)).
    right. right. left. reflexivity.
  Defined.


End FormatExtrasWitnesses.

(** ** More on registration and initialisation *)

Module InitExtras.
  Import JsonLogging Ops Props ExtraProps Invariants InitFacts.

  #[local] Arguments construct : simpl never.
  #[local] Arguments update_formatter_for_loggers : simpl never.
  #[local] Arguments call_config : simpl never.

Lemma same_activation_refl s : same_activation s s.
  Proof. by repeat split. Qed.

Lemma same_activation_trans s1 s2 s3 :
    same_activation s1 s2 -> same_activation s2 s3 -> same_activation s1 s3.
  Proof.
    intros [(? & ? & ?) ?] [(? & ? & ?) ?]. repeat split; congruence.
  Qed.

Ltac keeps_activation :=
    preserves_with same_activation_refl same_activation_trans
      ltac:(by repeat split).

Lemma log_keeps_activation l msg : preserves same_activation (log l msg).
  Proof. unfold log. keeps_activation. Qed.

Lemma setitem_keeps_activation l k v : preserves same_activation (setitem l k v).
  Proof. unfold setitem. keeps_activation. Qed.

  #[local] Hint Resolve log_keeps_activation setitem_keeps_activation : core.

Lemma validate_subclass_keeps_activation c b :
    preserves same_activation (validate_subclass c b).
  Proof. unfold validate_subclass. keeps_activation. Qed.

Lemma construct_keeps_activation c : preserves same_activation (construct c).
  Proof. unfold construct, BaseJSONFormatter_init. keeps_activation. Qed.

  #[local] Hint Resolve validate_subclass_keeps_activation
    construct_keeps_activation : core.

Lemma install_on_handlers_keeps_activation c hs :
    preserves same_activation (install_on_handlers c hs).
  Proof. induction hs as [| h hs IH]; simpl; keeps_activation. Qed.

  #[local] Hint Resolve install_on_handlers_keeps_activation : core.

Lemma update_formatter_for_loggers_keeps_activation ls c :
    preserves same_activation (update_formatter_for_loggers ls c).
  Proof. induction ls as [| l ls IH]; simpl; keeps_activation. Qed.

Lemma call_config_keeps_activation c : preserves same_activation (call_config c).
  Proof. unfold call_config. keeps_activation. Qed.

  #[local] Hint Resolve update_formatter_for_loggers_keeps_activation
    call_config_keeps_activation : core.

Lemma step_keeps_activation (o : op) :
    is_init o = false -> preserves same_activation (step o).
  Proof.
    destruct o; try discriminate; intros _; simpl.
    - unfold register_framework_support. keeps_activation.
    - unfold config_root_logger. keeps_activation.
    - unfold init_request_instrument, configurator_of. keeps_activation.
    - unfold get_request_logger. keeps_activation.
    - keeps_activation.
    - keeps_activation.
  Qed.

  (** X8.  Only the [init_*] family writes the active framework, the
      request util, the default formatter and [ENABLE_JSON_LOGGING]: any
      sequence of the other public operations, registrations included,
      leaves all four as they were, whether the calls return or raise. *)
Theorem only_init_activates (ops : list op) (s : state) :
    Forall (fun o => is_init o = false) ops ->
    _current_framework (run ops s) = _current_framework s
    /\ _request_util (run ops s) = _request_util s
    /\ _default_formatter (run ops s) = _default_formatter s
    /\ ENABLE_JSON_LOGGING (run ops s) = ENABLE_JSON_LOGGING s.
  Proof.
    intros Hops.
    assert (H : same_activation s (run ops s)).
    { apply (preserves_run _ same_activation_refl same_activation_trans).
      eapply Forall_impl; [exact Hops |]. intros o. apply step_keeps_activation. }
    destruct H as [(? & ? & ?) ?]. by repeat split.
  Qed.

Lemma only_init_activates_witness :
    let s := Sample.flask_state in
    let ops := [Register (Some "flask") None
                  (support_class "Other" AppRequestInstrumentationConfigurator_name)
                  (support_class "OtherRq" RequestAdapter_name)
                  (support_class "OtherRs" ResponseAdapter_name);
                ConfigRootLogger; NewFormatter JSONLogFormatter] in
    _current_framework (run ops s) = _current_framework s
    /\ _request_util (run ops s) = _request_util s
    /\ _default_formatter (run ops s) = _default_formatter s
    /\ ENABLE_JSON_LOGGING (run ops s) = ENABLE_JSON_LOGGING s.
  Proof.
    intros s ops. apply only_init_activates. repeat constructor.
  Defined.

  (** The calls into the host summarised by [same_activation]. *)
Ltac summarise_activation lem :=
    apply (wp_preserves same_activation); [apply lem |];
    let r := fresh "r" in let s' := fresh "s'" in
    intros r s' [(? & ? & ?) ?]; simpl in *.

Ltac host_calls_activation :=
    match goal with
    | |- wp (construct _) _ _ => summarise_activation construct_keeps_activation
    | |- wp (update_formatter_for_loggers _ _) _ _ =>
      summarise_activation update_formatter_for_loggers_keeps_activation
    | |- wp (call_config _) _ _ => summarise_activation call_config_keeps_activation
    end.

Ltac chase_fields :=
    repeat match goal with
           | H : _current_framework ?s = _ |- context [_current_framework ?s] =>
             rewrite H
           | H : _request_util ?s = _ |- context [_request_util ?s] => rewrite H
           | H : _default_formatter ?s = _ |- context [_default_formatter ?s] =>
             rewrite H
           | H : ENABLE_JSON_LOGGING ?s = _ |- context [ENABLE_JSON_LOGGING ?s] =>
             rewrite H
           end.

Lemma non_web_init_keeps_activation_fields (s : state) framework_name
      custom_formatter enable_json :
    truthy_opt_str framework_name = false ->
    wp (__init framework_name custom_formatter enable_json)
       (fun _ s' => _current_framework s' = _current_framework s
                    /\ _request_util s' = _request_util s) s.
  Proof.
    intros Hname. unfold __init.
    wp_run_with ltac:(idtac; host_calls_activation).
    all: chase_fields; done.
  Qed.

  (** X9.  A non-web initialisation never makes request instrumentation
      available.  After any sequence of operations in which the only
      initialisations are [init_non_web] calls without a framework name,
      [init_request_instrument] and [get_request_logger] raise their
      configuration errors and [get_correlation_id] raises
      [AttributeError]; none of the three writes anything. *)
Theorem non_web_init_leaves_web_api_closed (ops : list op)
      (json is_fastapi_present : bool) :
    Forall (fun o => not_web_init o = true) ops ->
    let s := run ops (imported json is_fastapi_present) in
    (forall app custom_formatter exclude_url_patterns extractor,
        init_request_instrument app custom_formatter exclude_url_patterns extractor s
        = (Raise not_inited, s))
    /\ get_request_logger s = (Raise no_request_logger, s)
    /\ (forall (Req : Type) (RA : RequestAdapter Req) generator policy
               (request : option Req) (g : nat),
          exists msg,
            Resolver.get_correlation_id generator policy s request g
            = Raise (AttributeError msg)).
  Proof.
    intros Hops s.
    assert (Hinv : _current_framework s = None /\ _request_util s = None).
    { unfold s. clear s.
      assert (Hstart : _current_framework (imported json is_fastapi_present) = None
                       /\ _request_util (imported json is_fastapi_present) = None).
      { split; [apply imported_not_initialised |].
        by destruct json, is_fastapi_present. }
      revert Hstart. generalize (imported json is_fastapi_present) as s0.
      induction Hops as [| o ops Ho _ IH]; intros s0 [Hcf Hru]; [done |].
      simpl. apply IH.
      destruct (is_init o) eqn:Hinit.
      - destruct o; try discriminate; try discriminate Ho.
        simpl in Ho. apply negb_true_iff in Ho.
        pose proof (wp_elim _ _ _
                      (non_web_init_keeps_activation_fields s0 framework_name
                         custom_formatter enable_json Ho)) as [H1 H2].
        simpl. unfold init_non_web. by rewrite H1, H2.
      - destruct (step_keeps_activation o Hinit s0) as [(H1 & _ & _) H2].
        by rewrite H1, H2. }
    destruct Hinv as [Hcf Hru]. split; [| split].
    - intros. by apply init_request_instrument_guard.
    - unfold get_request_logger, mbind, M_bind, bind, get. simpl. by rewrite Hcf.
    - intros. unfold Resolver.get_correlation_id. rewrite Hru. by eexists.
  Qed.

Lemma non_web_init_leaves_web_api_closed_witness :
    let s := run [InitNonWeb None None true; NewFormatter JSONLogFormatter]
               (imported false false) in
    get_request_logger s = (Raise no_request_logger, s).
  Proof.
    intros s.
    destruct (non_web_init_leaves_web_api_closed
                [InitNonWeb None None true; NewFormatter JSONLogFormatter] false false)
      as (_ & H & _); [repeat constructor | exact H].
  Defined.

  (** X10.  Whatever the environment toggle was, after a call of [__init]
      the flag [ENABLE_JSON_LOGGING] is the [enable_json] argument of that
      call, whether the call returned or raised. *)
Theorem init_sets_flag_to_argument (s : state) framework_name custom_formatter
      enable_json :
    ENABLE_JSON_LOGGING (snd (__init framework_name custom_formatter enable_json s))
    = enable_json.
  Proof.
    apply (wp_elim (__init framework_name custom_formatter enable_json)
             (fun _ s' => ENABLE_JSON_LOGGING s' = enable_json)).
    unfold __init.
    wp_run_with ltac:(idtac; host_calls_activation).
    all: chase_fields; try done.
    all: repeat match goal with
                | H : negb ?b && _ = false |- _ => destruct b; simpl in H
                | H : negb ?b = false |- _ => destruct b; simpl in H
                end; try done; try discriminate.
  Qed.

  (** X11.  A [custom_formatter] that is no subclass of
      [logging.Formatter] makes a first [__init] raise [ValueError] before
      it looks at the framework name; only the flag has been written. *)
Theorem init_rejects_custom_formatter (s : state) framework_name (c : pyclass)
      enable_json :
    _current_framework s = None ->
    issubclass c Formatter_name = false ->
    __init framework_name (Some c) enable_json s
    = (Raise bad_formatter, set_ENABLE_JSON_LOGGING enable_json s).
  Proof.
    intros Hcf Hbad. unfold __init, mbind, M_bind, bind, modify, get, raise. simpl.
    by rewrite Hcf, Hbad.
  Qed.

Lemma init_rejects_custom_formatter_witness :
    fst (__init (Some "flask") (Some DefaultRequestResponseDTO) true
           (imported false false))
    = Raise bad_formatter.
  Proof.
    rewrite (init_rejects_custom_formatter (imported false false) (Some "flask")
               DefaultRequestResponseDTO true);
      [reflexivity | apply imported_not_initialised | vm_compute; reflexivity].
  Defined.

  (** X12.  An [__init] that returns has made the default formatter the
      custom class when one was given, [JSONLogWebFormatter] for a framework
      name and [JSONLogFormatter] without one. *)
Theorem init_selects_formatter (s : state) framework_name custom_formatter
      enable_json :
    fst (__init framework_name custom_formatter enable_json s) = Ok tt ->
    _default_formatter (snd (__init framework_name custom_formatter enable_json s))
    = Some (selected_formatter framework_name custom_formatter).
  Proof.
    apply (wp_elim (__init framework_name custom_formatter enable_json)
             (fun r s' => r = Ok tt ->
                          _default_formatter s'
                          = Some (selected_formatter framework_name custom_formatter))).
    unfold __init, selected_formatter.
    wp_run_with ltac:(idtac; host_calls_activation).
    all: intros Hr; try discriminate Hr; clear Hr.
    all: chase_fields; try done.
    all: repeat match goal with
                | H : truthy_opt_str ?n = _ |- context [truthy_opt_str ?n] => rewrite H
                | H : ?c = Some _ |- context [default _ ?c] => rewrite H
                | H : ?c = None |- context [default _ ?c] => rewrite H
                end; try done.
  Qed.

Lemma init_selects_formatter_witness :
    _default_formatter (snd (__init (Some "flask") None true (imported false false)))
    = Some JSONLogWebFormatter
    /\ _default_formatter (snd (__init None None false (imported false false)))
       = Some JSONLogFormatter.
  Proof.
    split.
    - apply (init_selects_formatter (imported false false) (Some "flask") None true).
      vm_compute. reflexivity.
    - apply (init_selects_formatter (imported false false) None None false).
      vm_compute. reflexivity.
  Defined.

End InitExtras.

Module InitExtras2.
  Import JsonLogging Ops Props ExtraProps Invariants InitFacts InitExtras.

  #[local] Arguments construct : simpl never.
  #[local] Arguments update_formatter_for_loggers : simpl never.

  (** X13.  When the framework's app configurator raises during a first
      [__init] with JSON enabled (the name in ASCII characters), the exception reaches the caller with the
      module half initialised: the framework entry and the request util are
      in place, the default formatter is not, and every later [__init] is
      turned away as a second initialisation. *)
Theorem init_half_done_when_configurator_raises (s : state) (name : string)
      (e : entry) (c : pyclass) (ex : exn) custom_formatter :
    _current_framework s = None ->
    formatter_ok custom_formatter = true ->
    truthy_str name = true ->
    ascii_only name = true ->
    _framework_support_map s !! lower name = Some e ->
    app_configurator e = Some c ->
    cls_config_raises c = Some ex ->
    let out := __init (Some name) custom_formatter true s in
    fst out = Raise ex
    /\ _current_framework (snd out) = Some e
    /\ _request_util (snd out)
       = Some (mkRequestUtil (request_adapter_class e) (response_adapter_class e))
    /\ _default_formatter (snd out) = _default_formatter s
    /\ (forall n cf ej, fst (__init n cf ej (snd out)) = Raise already).
  Proof.
    intros Hcf Hok Hname _ Hmap Happ Hraise out.
    assert (H : fst out = Raise ex
                /\ _current_framework (snd out) = Some e
                /\ _request_util (snd out)
                   = Some (mkRequestUtil (request_adapter_class e)
                             (response_adapter_class e))
                /\ _default_formatter (snd out) = _default_formatter s).
    { unfold out.
      apply (wp_elim (__init (Some name) custom_formatter true)
               (fun r s' =>
                  r = Raise ex
                  /\ _current_framework s' = Some e
                  /\ _request_util s'
                     = Some (mkRequestUtil (request_adapter_class e)
                               (response_adapter_class e))
                  /\ _default_formatter s' = _default_formatter s)).
      unfold __init, call_config.
      wp_run_with ltac:(idtac; host_calls_activation).
      all: unfold formatter_ok in Hok; simpl in Hok.
      all: repeat match goal with
                  | H : negb ?b = true |- _ => destruct b eqn:?; simpl in H
                  | H1 : ?a = Some _, H2 : ?a = Some _ |- _ =>
                    rewrite H1 in H2; injection H2 as <-
                  | H1 : ?a = Some _, H2 : ?a = None |- _ =>
                    rewrite H1 in H2; discriminate H2
                  | H : Some _ = Some _ |- _ => injection H as ->
                  end; try discriminate.
      all: chase_fields.
      all: by repeat split. }
    destruct H as (Hr & Hfw & Hru & Hdf). repeat split; try done.
    intros n cf ej. by rewrite (init_guard _ e).
  Qed.

Lemma init_half_done_when_configurator_raises_witness :
    let s := set_framework_support_map
               (<["broken" := Sample.failing_entry]>
                  (_framework_support_map (imported false false)))
               (imported false false) in
    let out := __init (Some "Broken") None true s in
    fst out = Raise (RuntimeError "broken")
    /\ _current_framework (snd out) = Some Sample.failing_entry
    /\ fst (__init (Some "flask") None true (snd out)) = Raise already.
  Proof.
    intros s out.
    assert (Hcf : _current_framework s = None) by apply imported_not_initialised.
    assert (Hmap : _framework_support_map s !! lower "Broken"
                   = Some Sample.failing_entry) by apply lookup_insert_eq.
    destruct (init_half_done_when_configurator_raises s "Broken" Sample.failing_entry
                (mkClass "BrokenAppConfigurator"
                   ["BrokenAppConfigurator"; "FrameworkConfigurator"; "object"]
                   (Some (RuntimeError "broken")))
                (RuntimeError "broken") None Hcf eq_refl eq_refl eq_refl Hmap
                eq_refl eq_refl)
      as (H1 & H2 & _ & _ & H5).
    split; [exact H1 |]. split; [exact H2 | apply H5].
  Defined.

  (** X14.  Importing the module registers flask, sanic, quart and
      connexion, and fastapi only when FastAPI can be imported; without it
      [init_fastapi] raises "fastapi is not a supported framework" and
      leaves the module uninitialised. *)
Theorem fastapi_registered_only_when_present (json is_fastapi_present : bool)
      custom_formatter enable_json :
    dom (_framework_support_map (imported json is_fastapi_present))
    = registered is_fastapi_present
    /\ (is_fastapi_present = false ->
        formatter_ok custom_formatter = true ->
        let out := init_fastapi custom_formatter enable_json (imported json false) in
        fst out = Raise (RuntimeError "fastapi is not a supported framework")
        /\ _current_framework (snd out) = None).
  Proof.
    split.
    - destruct json, is_fastapi_present; vm_compute; reflexivity.
    - intros _ Hok out.
      assert (Hmap : _framework_support_map (imported json false) !! lower "fastapi"
                     = None)
        by (destruct json; vm_compute; reflexivity).
      destruct (wp_elim _ _ _
                  (init_unknown_framework (imported json false) "fastapi"
                     custom_formatter enable_json eq_refl Hmap))
        as (Hsame & ex & Hex & Hspec).
      unfold out, init_fastapi. split.
      + rewrite Hex. f_equal. apply Hspec; [apply imported_not_initialised | done].
      + rewrite Hsame. apply imported_not_initialised.
  Qed.

Lemma fastapi_registered_only_when_present_witness :
    fst (init_fastapi None true (imported true false))
    = Raise (RuntimeError "fastapi is not a supported framework").
  Proof.
    destruct (fastapi_registered_only_when_present true false None true) as [_ H].
    destruct (H eq_refl eq_refl) as [H1 _]. exact H1.
  Defined.

Lemma valid_registration_inserts (s : state) (n : string)
      app_configurator instrumentation_configurator request_adapter response_adapter :
    truthy_str n = true ->
    classes_valid app_configurator instrumentation_configurator request_adapter
      response_adapter = true ->
    _framework_support_map
      (snd (register_framework_support (Some n) app_configurator
              instrumentation_configurator request_adapter response_adapter s))
    = <[lower n := mkEntry app_configurator instrumentation_configurator
                     request_adapter response_adapter]>
        (_framework_support_map s).
  Proof.
    intros Hn Hvalid.
    unfold classes_valid in Hvalid.
    apply andb_true_iff in Hvalid as [Hvalid Hc].
    apply andb_true_iff in Hvalid as [Hvalid Hi].
    apply andb_true_iff in Hvalid as [Hrq Hrs].
    unfold register_framework_support, validate_subclass.
    unfold mbind, M_bind, bind, mret, M_ret, ret, raise, get, when, log, modify.
    rewrite Hn. cbn [negb]. rewrite Hrq, Hrs, Hi.
    destruct app_configurator as [c |]; cbn [from_option] in Hc; rewrite ?Hc.
    all: cbn [fst snd].
    all: by destruct (bool_decide _ && _).
  Qed.

  (** X15.  Registration and initialisation meet on the lower-cased name:
      after a valid registration under some spelling in ASCII characters, a
      first [__init] under any such spelling with the same lower-case form
      finds that entry, and if it returns the entry is the active
      framework. *)
Theorem register_then_init_any_spelling (s : state) (n n' : string)
      app_configurator instrumentation_configurator request_adapter response_adapter
      custom_formatter enable_json :
    truthy_str n = true -> truthy_str n' = true ->
    ascii_only n = true -> ascii_only n' = true ->
    lower n' = lower n ->
    classes_valid app_configurator instrumentation_configurator request_adapter
      response_adapter = true ->
    let e := mkEntry app_configurator instrumentation_configurator request_adapter
               response_adapter in
    let s1 := snd (register_framework_support (Some n) app_configurator
                     instrumentation_configurator request_adapter response_adapter s) in
    _framework_support_map s1 !! lower n' = Some e
    /\ (fst (__init (Some n') custom_formatter enable_json s1) = Ok tt ->
        _current_framework (snd (__init (Some n') custom_formatter enable_json s1))
        = Some e).
  Proof.
    intros Hn Hn' _ _ Hlower Hvalid e s1.
    pose proof (valid_registration_inserts s n app_configurator
                  instrumentation_configurator request_adapter response_adapter
                  Hn Hvalid) as Hmap.
    assert (Hlook : _framework_support_map s1 !! lower n' = Some e).
    { unfold s1. rewrite Hmap, Hlower. apply lookup_insert_eq. }
    split; [exact Hlook |].
    intros Hok.
    destruct (wp_elim _ _ _
                (web_init_sets_framework s1 n' custom_formatter enable_json Hn') Hok)
      as (_ & Hfw & _).
    by rewrite Hfw.
  Qed.

Lemma register_then_init_any_spelling_witness :
    let s1 := snd (register_framework_support (Some "Flask") None
                     (support_class "FlaskAppRequestInstrumentationConfigurator"
                        AppRequestInstrumentationConfigurator_name)
                     (support_class "FlaskRequestAdapter" RequestAdapter_name)
                     (support_class "FlaskResponseAdapter" ResponseAdapter_name)
                     (initial false)) in
    is_Some (_framework_support_map s1 !! lower "FLASK").
  Proof.
    intros s1.
    destruct (register_then_init_any_spelling (initial false) "Flask" "FLASK" None
                (support_class "FlaskAppRequestInstrumentationConfigurator"
                   AppRequestInstrumentationConfigurator_name)
                (support_class "FlaskRequestAdapter" RequestAdapter_name)
                (support_class "FlaskResponseAdapter" ResponseAdapter_name)
                None true eq_refl eq_refl eq_refl eq_refl eq_refl eq_refl) as [H _].
    fold s1 in H. rewrite H. by eexists.
  Defined.

  (** X16.  Once a framework is active, [init_request_instrument] still
      checks its two class arguments before it builds the configurator: a
      [custom_formatter] that is no [logging.Formatter], or an extractor
      class that is no [RequestResponseDTOBase], raises [ValueError] and
      nothing, the application included, has been touched. *)
Theorem instrument_rejects_bad_classes (s : state) (e : entry) app custom_formatter
      exclude_url_patterns extractor :
    _current_framework s = Some e ->
    (formatter_ok custom_formatter = false ->
     init_request_instrument app custom_formatter exclude_url_patterns extractor s
     = (Raise bad_formatter, s))
    /\ (formatter_ok custom_formatter = true ->
        issubclass extractor "RequestResponseDTOBase" = false ->
        init_request_instrument app custom_formatter exclude_url_patterns extractor s
        = (Raise bad_extractor, s)).
  Proof.
    intros He.
    unfold init_request_instrument, formatter_ok, mbind, M_bind, bind, get, raise,
      mret, M_ret, ret.
    rewrite He. split.
    - destruct custom_formatter as [c |]; cbn [from_option]; [| discriminate].
      by intros ->.
    - destruct custom_formatter as [c |]; cbn [from_option].
      + intros -> ->. reflexivity.
      + intros _ ->. reflexivity.
  Qed.

Lemma instrument_rejects_bad_classes_witness :
    init_request_instrument "app" None [] JSONLogFormatter Sample.flask_state
    = (Raise bad_extractor, Sample.flask_state).
  Proof.
    assert (He : exists e, _current_framework Sample.flask_state = Some e)
      by (vm_compute; by eexists).
    destruct He as [e He].
    destruct (instrument_rejects_bad_classes Sample.flask_state e "app" None []
                JSONLogFormatter He) as [_ H].
    apply H; [reflexivity | vm_compute; reflexivity].
  Defined.

  (** X17.  [config_root_logger] on a root logger without handlers logs one
      error and does nothing else; with handlers but JSON logging off it
      does nothing at all. *)
Theorem config_root_logger_idle_cases (s : state) :
    (handlers (logging_root s) = [] ->
     config_root_logger s
     = (Ok tt, set_logger (_logger s ++ [(ERROR, no_root_handlers)]) s))
    /\ (handlers (logging_root s) <> [] -> ENABLE_JSON_LOGGING s = false ->
        config_root_logger s = (Ok tt, s)).
  Proof.
    unfold config_root_logger, mbind, M_bind, bind, get, log, modify, mret, M_ret, ret.
    split.
    - intros ->. reflexivity.
    - intros Hh ->. by destruct (handlers (logging_root s)).
  Qed.

Lemma config_root_logger_idle_cases_witness :
    _logger (snd (config_root_logger (imported false false)))
    = [(ERROR, no_root_handlers)].
  Proof.
    destruct (config_root_logger_idle_cases (imported false false)) as [H _].
    rewrite H by reflexivity. reflexivity.
  Defined.

End InitExtras2.

(** ** More on the carrier, its clock arithmetic and the constructor *)

Module CarrierExtras.
  Import DateTime Carrier TimeFacts JsonLogging Props.


  (** Whatever the two readings, the parts of their difference add up. *)
Lemma sub_parts (b a : datetime) :
    (days (sub b a) * 86400 + seconds (sub b a)) * 10 ^ 6 + microseconds (sub b a)
    = b - a
    /\ microseconds (sub b a) = (b - a) mod 1000000.
  Proof.
    unfold sub, us_per_day, us_per_second. cbn [days seconds microseconds].
    set (d := b - a). change (86400 * 1000000) with 86400000000.
    change (10 ^ 6) with 1000000.
    pose proof (Z.div_mod d 86400000000 ltac:(lia)) as H1.
    pose proof (Z.mod_pos_bound d 86400000000 ltac:(lia)) as H2.
    set (dd := d / 86400000000) in *. set (dm := d mod 86400000000) in *.
    pose proof (Z.div_mod dm 1000000 ltac:(lia)) as H3.
    pose proof (Z.mod_pos_bound dm 1000000 ltac:(lia)) as H4.
    assert (Hu : dm mod 1000000 = d mod 1000000).
    { replace (d mod 1000000) with ((dm + (86400 * dd) * 1000000) mod 1000000)
        by (f_equal; lia).
      by rewrite Z.mod_add by lia. }
    split; [| done]. rewrite <- Hu. lia.
  Qed.

  (** X19.  For a clock that went forward by [d] microseconds, less than
      [2^32 - 1] seconds, the stored [response_time_ms] is the elapsed time
      in whole milliseconds, rounded down: the two truncations of the
      formula lose nothing beyond that. *)
Theorem response_time_ms_is_floor_of_elapsed (T d : Z) :
    0 <= d < (2 ^ 32 - 1) * 1000000 ->
    response_time_ms (sub (T + d) T) = d / 1000.
  Proof.
    intros Hd.
    pose proof (Z.div_mod d 1000000 ltac:(lia)) as Hdm.
    pose proof (Z.mod_pos_bound d 1000000 ltac:(lia)) as Hu.
    set (s := d / 1000000) in *. set (u := d mod 1000000) in *.
    assert (Hs : 0 <= s < 2 ^ 32 - 1).
    { split; [apply Z.div_pos; lia |]. apply Z.div_lt_upper_bound; lia. }
    destruct (sub_forward T s u ltac:(lia) Hu) as [Hmicro Hsec].
    replace (T + s * 1000000 + u) with (T + d) in Hmicro, Hsec by lia.
    unfold response_time_ms, total_seconds. rewrite Hsec, Hmicro.
    change (10 ^ 6) with 1000000.
    assert (Hq : (s * 1000000 + u) / 1000000 = s)
      by (symmetry; apply Z.div_unique with (r := u); lia).
    rewrite !int_true_div; try lia.
    - rewrite Hq. replace d with (u + s * 1000 * 1000) by lia.
      rewrite Z.div_add by lia. lia.
    - assert (u / 1000 < 1000) by (apply Z.div_lt_upper_bound; lia). lia.
  Qed.

Lemma response_time_ms_is_floor_of_elapsed_witness :
    response_time_ms (sub (0 + 1999999) 0) = 1999.
  Proof.
    rewrite (response_time_ms_is_floor_of_elapsed 0 1999999) by lia. reflexivity.
  Defined.

  (** [int(a / b)] truncates towards zero for a negative [a]. *)
Lemma int_true_div_neg (a b : Z) :
    0 < b < 2 ^ 21 -> a < 0 -> (- a) / b + 1 <= 2 ^ 32 ->
    int_of_float (true_div a b) = - ((- a) / b).
  Proof.
    intros Hb Ha Hq.
    unfold true_div. destruct (a =? 0) eqn:E0; [apply Z.eqb_eq in E0; lia |].
    rewrite Z.abs_neq by lia.
    pose proof (Z.div_mod (- a) b ltac:(lia)) as Hdm.
    pose proof (Z.mod_pos_bound (- a) b ltac:(lia)) as Hr.
    pose proof (Z.div_pos (- a) b ltac:(lia) ltac:(lia)) as Hs.
    destruct (true_div_pos_window b ((- a) / b) ((- a) mod b)) as (m & k & Heq & Hk & Hm);
      try lia.
    replace ((- a) / b * b + (- a) mod b) with (- a) in Heq by lia.
    rewrite Heq. rewrite (Z.sgn_neg a) by lia.
    unfold int_of_float.
    destruct (0 <=? - k) eqn:E; [apply Z.leb_le in E; lia |].
    rewrite Z.opp_involutive.
    assert (0 < 2 ^ k) by (apply Z.pow_pos_nonneg; lia).
    replace (-1 * m) with (- m) by lia.
    rewrite Z.quot_opp_l by lia. f_equal.
    rewrite Z.quot_div_nonneg by nia.
    symmetry. apply Z.div_unique with (r := m - (- a) / b * 2 ^ k); lia.
  Qed.

  (** X20.  For a clock that went back by [d] microseconds the two
      truncations pull apart: the seconds are truncated towards zero while
      the microsecond part of the normalised difference is counted
      upwards.  A step back of less than a second is therefore stored as a
      response time between 0 and 999 milliseconds. *)
Theorem response_time_ms_when_clock_goes_back (T d : Z) :
    0 < d -> d / 1000000 + 1 <= 2 ^ 32 ->
    response_time_ms (sub (T - d) T)
    = - (d / 1000000) * 1000 + ((- d) mod 1000000) / 1000
    /\ (d < 1000000 ->
        response_time_ms (sub (T - d) T) = (1000000 - d) / 1000
        /\ 0 <= response_time_ms (sub (T - d) T) <= 999).
  Proof.
    intros Hd Hbound.
    destruct (sub_parts (T - d) T) as [Htotal Hmicro].
    replace (T - d - T) with (- d) in Htotal, Hmicro by lia.
    pose proof (Z.mod_pos_bound (- d) 1000000 ltac:(lia)) as Hu.
    assert (Hformula : response_time_ms (sub (T - d) T)
                       = - (d / 1000000) * 1000 + ((- d) mod 1000000) / 1000).
    { unfold response_time_ms, total_seconds. rewrite Htotal, Hmicro.
      change (10 ^ 6) with 1000000.
      rewrite int_true_div_neg by (rewrite ?Z.opp_involutive; lia).
      rewrite Z.opp_involutive.
      rewrite int_true_div; try lia.
      assert (((- d) mod 1000000) / 1000 < 1000)
        by (apply Z.div_lt_upper_bound; lia).
      lia. }
    split; [exact Hformula |].
    intros Hsmall. rewrite Hformula.
    rewrite (Z.div_small d 1000000) by lia.
    assert (Hmod : (- d) mod 1000000 = 1000000 - d).
    { symmetry. apply Z.mod_unique with (q := -1); lia. }
    rewrite Hmod. split; [lia |].
    assert (0 <= (1000000 - d) / 1000) by (apply Z.div_pos; lia).
    assert ((1000000 - d) / 1000 < 1000) by (apply Z.div_lt_upper_bound; lia).
    lia.
  Qed.

Lemma response_time_ms_when_clock_goes_back_witness :
    response_time_ms (sub (10000000 - 500000) 10000000) = 500.
  Proof.
    destruct (response_time_ms_when_clock_goes_back 10000000 500000
                ltac:(lia) ltac:(vm_compute; discriminate)) as [_ H].
    destruct (H ltac:(lia)) as [Heq _]. rewrite Heq. reflexivity.
  Defined.

  (** X21.  The constructor copies a component global only when it is
      truthy and not ["-"]: with the module's defaults (["-"], ["-"] and
      index [0]) it writes nothing at all, and an instance index of [0] is
      never stamped whatever the other two are. *)
Theorem constructor_skips_default_identity (s : state) (c : pyclass) :
    configured (VStr "-") = false /\ configured (VInt 0) = false
    /\ configured (VStr "") = false /\ configured VNone = false
    /\ (configured (COMPONENT_ID s) = false ->
        configured (COMPONENT_NAME s) = false ->
        configured (COMPONENT_INSTANCE_INDEX s) = false ->
        snd (BaseJSONFormatter_init c s) = s)
    /\ (configured (COMPONENT_INSTANCE_INDEX s) = false ->
        common_dict (snd (BaseJSONFormatter_init c s)) !! "component_instance_idx"
        = common_dict s !! "component_instance_idx").
  Proof.
    repeat (split; [reflexivity |]).
    unfold BaseJSONFormatter_init, configured, common_dict, common_of.
    unfold mbind, M_bind, bind, mret, M_ret, ret, get, when, setitem, modify.
    cbn [fmt_common default].
    split.
    - intros -> -> ->. reflexivity.
    - intros ->.
      destruct (truthy (COMPONENT_ID s) && ne_EMPTY_VALUE (COMPONENT_ID s));
        destruct (truthy (COMPONENT_NAME s) && ne_EMPTY_VALUE (COMPONENT_NAME s));
        simpl; try reflexivity.
      all: repeat (rewrite lookup_insert_eq; simpl).
      all: by rewrite ?lookup_insert_ne.
  Qed.

Lemma constructor_skips_default_identity_witness :
    snd (BaseJSONFormatter_init JSONLogFormatter (imported false false))
    = imported false false.
  Proof.
    destruct (constructor_skips_default_identity (imported false false)
                JSONLogFormatter) as (_ & _ & _ & _ & H & _).
    apply H; reflexivity.
  Defined.

  (** X22.  Constructing formatters is idempotent on the shared dict: the
      dict after a second construction, of the same or another class, is
      the dict after the first. *)
Theorem construction_is_idempotent (s : state) (c1 c2 : pyclass) :
    let s1 := snd (BaseJSONFormatter_init c1 s) in
    common_dict (snd (BaseJSONFormatter_init c2 s1)) = common_dict s1.
  Proof.
    intros s1. subst s1.
    unfold BaseJSONFormatter_init, common_dict, common_of.
    unfold mbind, M_bind, bind, mret, M_ret, ret, get, when, setitem, modify.
    cbn [fmt_common default].
    set (b1 := truthy (COMPONENT_ID s) && ne_EMPTY_VALUE (COMPONENT_ID s)).
    set (b2 := truthy (COMPONENT_NAME s) && ne_EMPTY_VALUE (COMPONENT_NAME s)).
    set (b3 := truthy (COMPONENT_INSTANCE_INDEX s)
               && ne_EMPTY_VALUE (COMPONENT_INSTANCE_INDEX s)).
    destruct b1 eqn:E1, b2 eqn:E2, b3 eqn:E3; subst b1 b2 b3; simpl;
      rewrite ?E1, ?E2, ?E3; simpl.
    all: repeat (rewrite lookup_insert_eq; simpl).
    all: try reflexivity.
    all: apply map_eq; intros k.
    all: repeat (rewrite lookup_insert; case_decide); done.
  Qed.

End CarrierExtras.
